(** * docs-to-pdf: link extractor, page renderer and PDF merger

    A shallow embedding of [extract_urls.py], [save_pages.py] and
    [merge_pdfs.py].

    Conventions of the embedding:
    - a Python [str] is a [string]; a character is a code point in
      U+0000..U+00FF, and [isspace] / [isalnum] are Python's [str.isspace]
      and [str.isalnum] on that range;
    - a Python [int] is a [Z], a length or counter is a [nat];
    - a [dict] used as a table is a [gmap]; a JSON document is a [json];
    - the operating system, the HTML parser, the PDF library and the
      rendering subprocess are interfaces (type classes) over a type of
      worlds; [print] is not modelled. *)

From Stdlib Require Import ZArith Ascii String List Lia.
From Stdlib Require Import DecimalString.
From stdpp Require Import base option list gmap strings.

Set Warnings "-register-all".

(** ** Python string methods *)

Module Py.

(** [c.isspace()] *)
Definition isspace (c : ascii) : bool :=
  let n := nat_of_ascii c in
  ((9 <=? n) && (n <=? 13)) || ((28 <=? n) && (n <=? 32))
  || (n =? 133) || (n =? 160).

(** [c.isalnum()] *)
Definition isalnum (c : ascii) : bool :=
  let n := nat_of_ascii c in
  ((48 <=? n) && (n <=? 57)) || ((65 <=? n) && (n <=? 90))
  || ((97 <=? n) && (n <=? 122))
  || (n =? 170) || (n =? 178) || (n =? 179) || (n =? 181)
  || (n =? 185) || (n =? 186) || ((188 <=? n) && (n <=? 190))
  || ((192 <=? n) && (n <=? 214)) || ((216 <=? n) && (n <=? 246))
  || ((248 <=? n) && (n <=? 255)).

(** [c in chars] *)
Fixpoint mem (c : ascii) (chars : string) : bool :=
  match chars with
  | EmptyString => false
  | String c' rest => if Ascii.eqb c c' then true else mem c rest
  end.

(** [bool(s)]: a string is true when it is not empty. *)
Definition truthy (s : string) : bool :=
  match s with EmptyString => false | String _ _ => true end.

(** ["".join(c for c in s if p(c))] *)
Fixpoint filter (p : ascii -> bool) (s : string) : string :=
  match s with
  | EmptyString => EmptyString
  | String c rest => if p c then String c (filter p rest) else filter p rest
  end.

(** Removal of the leading characters that satisfy [p]. *)
Fixpoint lstrip_by (p : ascii -> bool) (s : string) : string :=
  match s with
  | EmptyString => EmptyString
  | String c rest => if p c then lstrip_by p rest else s
  end.

(** Removal of the trailing characters that satisfy [p]. *)
Fixpoint rstrip_by (p : ascii -> bool) (s : string) : string :=
  match s with
  | EmptyString => EmptyString
  | String c rest =>
      match rstrip_by p rest with
      | EmptyString => if p c then EmptyString else String c EmptyString
      | String _ _ as r => String c r
      end
  end.

(** [s.rstrip()], [s.strip()] *)
Definition rstrip (s : string) : string := rstrip_by isspace s.
Definition strip (s : string) : string := rstrip_by isspace (lstrip_by isspace s).

(** [s.rstrip(chars)]: [chars] is a set of characters, not a suffix. *)
Definition rstrip_chars (chars s : string) : string :=
  rstrip_by (fun c => mem c chars) s.

(** Does [s] begin with a character that is not white space? *)
Definition starts_word (s : string) : bool :=
  match s with
  | EmptyString => false
  | String c _ => negb (isspace c)
  end.

(** [s.split()]: the maximal runs of characters that are not white space. *)
Fixpoint split (s : string) : list string :=
  match s with
  | EmptyString => []
  | String c rest =>
      if isspace c then split rest
      else if starts_word rest then
        match split rest with
        | w :: ws => String c w :: ws
        | [] => [String c EmptyString]
        end
      else String c EmptyString :: split rest
  end.

(** [sep.join(parts)] *)
Fixpoint join (sep : string) (parts : list string) : string :=
  match parts with
  | [] => EmptyString
  | [w] => w
  | w :: ws => w +:+ sep +:+ join sep ws
  end.

(** [s.startswith(c)], [s.endswith(c)] for a one-character [c]. *)
Definition startswith (c : ascii) (s : string) : bool :=
  match s with
  | EmptyString => false
  | String c' _ => Ascii.eqb c' c
  end.

Fixpoint endswith (c : ascii) (s : string) : bool :=
  match s with
  | EmptyString => false
  | String c' EmptyString => Ascii.eqb c' c
  | String _ rest => endswith c rest
  end.

(** [str(n)] for a counter. *)
Definition str_of_nat (n : nat) : string :=
  NilZero.string_of_uint (Nat.to_uint n).

End Py.

(** ** [os.path] on POSIX *)

Module OsPath.

(** [p[:p.rfind('/') + 1]] *)
Fixpoint head_of (p : string) : string :=
  match p with
  | EmptyString => EmptyString
  | String c rest =>
      match head_of rest with
      | EmptyString => if Ascii.eqb c "/" then String c EmptyString else EmptyString
      | String _ _ as h => String c h
      end
  end.

(** [head == '/' * len(head)] *)
Fixpoint all_slashes (s : string) : bool :=
  match s with
  | EmptyString => true
  | String c rest => Ascii.eqb c "/" && all_slashes rest
  end.

(** [os.path.dirname(p)] *)
Definition dirname (p : string) : string :=
  let head := head_of p in
  if Py.truthy head && negb (all_slashes head)
  then Py.rstrip_chars "/" head
  else head.

(** One step of [os.path.join]: [path] extended by the component [b]. *)
Definition join2 (path b : string) : string :=
  if Py.startswith "/" b then b
  else if negb (Py.truthy path) || Py.endswith "/" path then path +:+ b
  else path +:+ "/" +:+ b.

(** [os.path.join(a, *p)] *)
Definition join (a : string) (p : list string) : string :=
  fold_left join2 p a.

End OsPath.

(** ** The manifest and its JSON form *)

(** A link record: the dict with keys [url], [title], [file_name]. *)
Record LinkRecord := mkLink {
  url : string;
  title : string;
  file_name : string
}.

Definition set_file_name (l : LinkRecord) (f : string) : LinkRecord :=
  {| url := url l; title := title l; file_name := f |}.

(** JSON values as [json.load] returns them; a dict keeps its keys in
    insertion order. *)
Inductive json :=
| JNull
| JBool (b : bool)
| JInt (n : Z)
| JStr (s : string)
| JList (items : list json)
| JDict (fields : list (string * json)).

Module Json.

(** [d.get(key)] on the fields of a dict. *)
Fixpoint assoc (key : string) (fields : list (string * json)) : option json :=
  match fields with
  | [] => None
  | (k, v) :: rest => if String.eqb k key then Some v else assoc key rest
  end.

Definition get (key : string) (d : json) : option json :=
  match d with
  | JDict fields => assoc key fields
  | _ => None
  end.

Definition is_dict (v : json) : bool :=
  match v with JDict _ => true | _ => false end.

(** [bool(v)] *)
Definition truthy (v : json) : bool :=
  match v with
  | JNull => false
  | JBool b => b
  | JInt n => negb (n =? 0)%Z
  | JStr s => Py.truthy s
  | JList items => match items with [] => false | _ => true end
  | JDict fields => match fields with [] => false | _ => true end
  end.

Definition of_link (l : LinkRecord) : json :=
  JDict [("url", JStr (url l)); ("title", JStr (title l));
         ("file_name", JStr (file_name l))].

(** A record of the manifest read back: the three string fields. *)
Definition to_link (v : json) : option LinkRecord :=
  match get "url" v, get "title" v, get "file_name" v with
  | Some (JStr u), Some (JStr t), Some (JStr f) => Some (mkLink u t f)
  | _, _, _ => None
  end.

Fixpoint to_links (items : list json) : option (list LinkRecord) :=
  match items with
  | [] => Some []
  | v :: rest =>
      match to_link v, to_links rest with
      | Some l, Some ls => Some (l :: ls)
      | _, _ => None
      end
  end.

End Json.

(** ** The environment *)

(** The file system. [None] stands for a raised [OSError]. [json_dump p v]
    is [with open(p, "w") as f: json.dump(v, f, ...)] and [json_load p] is
    [with open(p) as f: json.load(f)]; what is dumped is what is loaded. *)
Class FileSystem (W : Type) := {
  path_exists : string -> W -> bool;
  read_text : string -> W -> option string;
  makedirs : string -> W -> option W;
  json_dump : string -> json -> W -> option W;
  json_load : string -> W -> option json;
  json_load_dump :
    forall p v w w', json_dump p v w = Some w' -> json_load p w' = Some v
}.

(** ** The link extractor, [extract_urls.py] *)

(** The document tree of the HTML parser. *)
Inductive node :=
| Text (s : string)
| Element (tag : string) (attrib : list (string * string)) (children : list node).

Module Dom.

(** [el.get(name)] *)
Fixpoint attr (name : string) (attrib : list (string * string)) : option string :=
  match attrib with
  | [] => None
  | (k, v) :: rest => if String.eqb k name then Some v else attr name rest
  end.

Definition get (name : string) (el : node) : option string :=
  match el with
  | Element _ a _ => attr name a
  | Text _ => None
  end.

(** [el.text_content()]: the text nodes below [el], concatenated. *)
Fixpoint text_content (el : node) : string :=
  match el with
  | Text s => s
  | Element _ _ children =>
      (fix all (l : list node) : string :=
         match l with
         | [] => EmptyString
         | c :: l' => text_content c +:+ all l'
         end) children
  end.

(** The nodes of the tree below and including [el], in document order. *)
Fixpoint nodes (el : node) : list node :=
  match el with
  | Text _ => [el]
  | Element _ _ children =>
      el :: (fix all (l : list node) : list node :=
               match l with
               | [] => []
               | c :: l' => nodes c ++ all l'
               end) children
  end.

(** The test of the path [a[@href]] on one node. *)
Definition is_a_href (el : node) : bool :=
  match el with
  | Element tag a _ => String.eqb tag "a" && bool_decide (is_Some (attr "href" a))
  | Text _ => false
  end.

(** [doc.xpath('//a[@href]')]: the matching elements in document order. *)
Fixpoint xpath_a_href (el : node) : list node :=
  match el with
  | Text _ => []
  | Element _ _ children =>
      (if is_a_href el then [el] else [])
      ++ (fix all (l : list node) : list node :=
            match l with
            | [] => []
            | c :: l' => xpath_a_href c ++ all l'
            end) children
  end.

End Dom.

Module Extract.

(** [safe_title] *)
Definition safe_title (title : string) : string :=
  Py.rstrip
    (Py.filter (fun c => Py.isalnum c || Py.mem c " -_.") title).

(** The body of the loop of [extract_urls_from_html]. *)
Definition extract_step (matches : list LinkRecord) (link : node) : list LinkRecord :=
  match Dom.get "href" link with
  | None => matches
  | Some href =>
      if negb (Py.truthy href) then matches
      else
        let title := Dom.text_content link in
        let title := Py.join " " (Py.split title) in
        if Py.truthy (Py.strip title) then
          matches ++ [ {| url := href;
                          title := Py.strip title;
                          file_name := safe_title (Py.strip title) +:+ ".pdf" |} ]
        else matches
  end.

(** [extract_urls_from_html]; [fromstring] is [lxml.html.fromstring], with
    [None] when it raises. *)
Definition extract_urls_from_html
    (fromstring : string -> option node) (html_content : string) : list LinkRecord :=
  match fromstring html_content with
  | Some doc => fold_left extract_step (Dom.xpath_a_href doc) []
  | None => []
  end.

(** The body of the loop of [main] that numbers repeated file names. *)
Definition dedup_step (st : gmap string nat * list LinkRecord) (link : LinkRecord)
    : gmap string nat * list LinkRecord :=
  let '(title_dict, links) := st in
  let key := file_name link in
  match title_dict !! key with
  | Some n =>
      let count := S n in
      let file_name := Py.rstrip_chars ".pdf" (file_name link) in
      (<[key := count]> title_dict,
       links ++ [set_file_name link
                   (file_name +:+ "_" +:+ Py.str_of_nat count +:+ ".pdf")])
  | None => (<[key := 1]> title_dict, links ++ [link])
  end.

Definition dedup (links : list LinkRecord) : list LinkRecord :=
  snd (fold_left dedup_step links (∅, [])).

(** The payload of [write_extracted_json]. *)
Definition payload (links : list LinkRecord) (base_url : string) : json :=
  JDict [("totalCount", JInt (Z.of_nat (length links)));
         ("baseUrl", JStr base_url);
         ("links", JList (map Json.of_link links))].

(** [write_extracted_json] *)
Definition write_extracted_json `{FileSystem W}
    (links : list LinkRecord) (base_url out_path : string) (w : W) : option W :=
  match makedirs (OsPath.dirname out_path) w with
  | Some w1 => json_dump out_path (payload links base_url) w1
  | None => None
  end.

(** [main]: [None] when reading the input or writing the manifest raises. *)
Definition main `{FileSystem W} (fromstring : string -> option node)
    (html_path base_url out : string) (w : W) : option W :=
  match read_text html_path w with
  | Some html =>
      let links := extract_urls_from_html fromstring html in
      write_extracted_json (dedup links) base_url out w
  | None => None
  end.

End Extract.

(** ** Reference statements for the extractor *)

Module ExtractSpec.

(** Is there a character in [s] that is not white space? *)
Fixpoint has_text (s : string) : bool :=
  match s with
  | EmptyString => false
  | String c rest => negb (Py.isspace c) || has_text rest
  end.

(** A word: not empty and without white space. *)
Definition is_word (w : string) : Prop :=
  w <> EmptyString /\ Py.filter Py.isspace w = EmptyString.

(** The value of the [href] attribute of an anchor. *)
Definition href (a : node) : string := default EmptyString (Dom.get "href" a).

(** The display text of an anchor: its text nodes, white space collapsed. *)
Definition display_text (a : node) : string :=
  Py.strip (Py.join " " (Py.split (Dom.text_content a))).

(** The record of one anchor. *)
Definition record_of (a : node) : LinkRecord :=
  {| url := href a;
     title := display_text a;
     file_name := Extract.safe_title (display_text a) +:+ ".pdf" |}.

(** The number of records of [ls] with the file name [name]. *)
Definition occurrences (name : string) (ls : list LinkRecord) : nat :=
  length (filter (fun l => file_name l = name) ls).

(** The record [l] after [k] earlier records with its file name. *)
Definition numbered (k : nat) (l : LinkRecord) : LinkRecord :=
  match k with
  | O => l
  | S _ =>
      set_file_name l
        (Py.rstrip_chars ".pdf" (file_name l) +:+ "_" +:+ Py.str_of_nat (S k) +:+ ".pdf")
  end.

(** The anchors of a document that carry an [href] attribute, in document
    order. *)
Definition anchors (doc : node) : list node :=
  List.filter Dom.is_a_href (Dom.nodes doc).

(** The records of a document as claimed: one for each anchor with an
    [href] attribute whose text is not blank. *)
Definition claimed_records (doc : node) : list LinkRecord :=
  map record_of
    (List.filter (fun a => has_text (Dom.text_content a)) (anchors doc)).

(** The same, for the anchors whose [href] is moreover not empty. *)
Definition followable (a : node) : bool :=
  Py.truthy (href a) && has_text (Dom.text_content a).

Definition records (doc : node) : list LinkRecord :=
  map record_of (List.filter followable (anchors doc)).

End ExtractSpec.

(** ** The page renderer, [save_pages.py] *)

(** What [subprocess.run(cmd, capture_output=True, text=True)] comes to: a
    completed process with the return code of the command, or an exception.
    It raises before the command starts ([FileNotFoundError] without the
    [node] executable, [ValueError] for an argument that holds a NUL
    character), and after the command ended, with the code [ended], when its
    output does not decode as text ([UnicodeDecodeError]). *)
Inductive completed :=
| Completed (returncode : Z)
| RunRaises (ended : option Z).

(** The rendering subprocess and the clock. [subprocess_run cmd] is
    [subprocess.run(cmd, ...)] with the world it leaves; [sleep s] is
    [time.sleep(s)], and [None] stands for its exception: an [OverflowError]
    for a number of seconds beyond what its clock holds. *)
Class Subprocess (W : Type) := {
  subprocess_run : list string -> W -> completed * W;
  sleep : Z -> W -> option W
}.

(** What a run of the renderer asks of the outside, in order: the calls of
    [subprocess.run] and of [time.sleep], whether they return or raise. *)
Inductive event :=
| Run (cmd : list string)
| Sleep (seconds : Z).

Definition is_run (e : event) : bool :=
  match e with Run _ => true | Sleep _ => false end.

(** The number of invocations of the external command in a log: the calls
    of [subprocess.run]. *)
Definition invocations (log : list event) : nat :=
  length (List.filter is_run log).

(** What a call of [run_node_save] ends with: a return code, the
    [UnboundLocalError] of [return proc.returncode] when no attempt ran, or
    an exception of [subprocess.run] or of [time.sleep], neither of which is
    caught. *)
Inductive returned :=
| Return (code : Z)
| UnboundLocalError
| RunError
| SleepError.

(** How [main] ends: [sys.exit], the end of the loop with its counters, or
    an exception that nothing catches. [IllTyped] marks a JSON object that
    is not of the form the extractor writes; such runs are outside the
    model. *)
Inductive outcome :=
| SysExit (code : Z)
| Finished (success fail skipped : nat)
| Raised
| IllTyped.

Record Args := {
  json_path : string;
  output_dir : string;
  max_retries : Z;
  selector : option string;
  proxy : option string;
  proxy_username : option string;
  proxy_password : option string
}.

Module Render.

(** [range(n)] *)
Definition range (n : Z) : list Z := map Z.of_nat (seq 0 (Z.to_nat n)).

(** [if opt: cmd.append(f"{flag}{opt}")] *)
Definition flag (name : string) (opt : option string) : list string :=
  match opt with
  | Some v => if Py.truthy v then [name +:+ v] else []
  | None => []
  end.

(** [read_json] *)
Definition read_json `{FileSystem W} (file_path : string) (w : W) : json :=
  match json_load file_path w with
  | Some v => v
  | None => JDict []
  end.

(** [ensure_dir]; [None] when [os.makedirs] raises. *)
Definition ensure_dir `{FileSystem W} (path : string) (w : W) : option W :=
  if negb (path_exists path w) then makedirs path w else Some w.

(** The absolute URL of a record, as [main] computes it. *)
Definition full_url (base_url : string) (link : LinkRecord) : string :=
  Py.rstrip_chars "/" base_url +:+ "/" +:+ url link.

Section Renderer.

Context {W : Type} `{FileSystem W} `{Subprocess W}.

(** [os.path.dirname(__file__)] *)
Variable script_dir : string.

(** The command line built by [run_node_save]. *)
Definition command (url file_name output_dir : string)
    (proxy proxy_username proxy_password selector : option string) : list string :=
  ["node";
   OsPath.join script_dir ["savepdf"; "savepdf.js"];
   "--url=" +:+ url;
   "--fileName=" +:+ file_name;
   "--outputDir=" +:+ output_dir]
  ++ flag "--selector=" selector
  ++ flag "--proxy=" proxy
  ++ flag "--proxyUsername=" proxy_username
  ++ flag "--proxyPassword=" proxy_password.

(** The loop [for attempt in range(max_retries + 1)] of [run_node_save] and
    the [return proc.returncode] after it; [proc] is the return code of the
    last invocation, if any. *)
Fixpoint attempts (cmd : list string) (pdf_path : string) (max_retries : Z)
    (todo : list Z) (proc : option Z) (w : W) : returned * W * list event :=
  match todo with
  | [] =>
      (match proc with Some rc => Return rc | None => UnboundLocalError end, w, [])
  | attempt :: rest =>
      match subprocess_run cmd w with
      | (RunRaises _, w1) => (RunError, w1, [Run cmd])
      | (Completed rc, w1) =>
          if (rc =? 0)%Z then
            if path_exists pdf_path w1 then (Return 0, w1, [Run cmd])
            else if (attempt <? max_retries)%Z then
              let wait_time := (2 ^ attempt)%Z in
              match sleep wait_time w1 with
              | None => (SleepError, w1, [Run cmd; Sleep wait_time])
              | Some w2 =>
                  let '(r, w3, log) :=
                    attempts cmd pdf_path max_retries rest (Some rc) w2 in
                  (r, w3, Run cmd :: Sleep wait_time :: log)
              end
            else (Return 1, w1, [Run cmd])
          else
            if (attempt <? max_retries)%Z then
              let wait_time := (2 ^ attempt)%Z in
              match sleep wait_time w1 with
              | None => (SleepError, w1, [Run cmd; Sleep wait_time])
              | Some w2 =>
                  let '(r, w3, log) :=
                    attempts cmd pdf_path max_retries rest (Some rc) w2 in
                  (r, w3, Run cmd :: Sleep wait_time :: log)
              end
            else (Return rc, w1, [Run cmd])
      end
  end.

(** [run_node_save] *)
Definition run_node_save (url file_name output_dir : string) (max_retries : Z)
    (proxy proxy_username proxy_password selector : option string) (w : W)
    : returned * W * list event :=
  let cmd := command url file_name output_dir
               proxy proxy_username proxy_password selector in
  attempts cmd (OsPath.join output_dir [file_name]) max_retries
    (range (max_retries + 1)) None w.

(** The loop of [main] over the records, with its three counters. *)
Fixpoint main_loop (args : Args) (base_url : string) (links : list LinkRecord)
    (success fail skipped : nat) (w : W) : outcome * W * list event :=
  match links with
  | [] => (Finished success fail skipped, w, [])
  | link :: rest =>
      let full_url := full_url base_url link in
      let file_name := file_name link in
      let pdf_path := OsPath.join (output_dir args) [file_name] in
      if path_exists pdf_path w then
        main_loop args base_url rest success fail (S skipped) w
      else
        match run_node_save full_url file_name (output_dir args) (max_retries args)
                (proxy args) (proxy_username args) (proxy_password args)
                (selector args) w with
        | (Return code, w1, log) =>
            let '(o, w2, log') :=
              if (code =? 0)%Z
              then main_loop args base_url rest (S success) fail skipped w1
              else main_loop args base_url rest success (S fail) skipped w1 in
            (o, w2, log ++ log')
        | (_, w1, log) => (Raised, w1, log)
        end
  end.

(** [data.get("baseUrl", "")] and [data.get("links", [])] of a manifest
    that is a JSON object. *)
Definition manifest_fields (data : json) : option (string * list LinkRecord) :=
  match data with
  | JDict fields =>
      match default (JStr "") (Json.assoc "baseUrl" fields),
            default (JList []) (Json.assoc "links" fields) with
      | JStr base_url, JList items =>
          match Json.to_links items with
          | Some links => Some (base_url, links)
          | None => None
          end
      | _, _ => None
      end
  | _ => None
  end.

(** [main] *)
Definition main (args : Args) (w : W) : outcome * W * list event :=
  let data := read_json (json_path args) w in
  if negb (Json.truthy data) then (SysExit 1, w, [])
  else if negb (Json.is_dict data) then
    (* [data.get] raises [AttributeError] on a list, a string or a number *)
    (Raised, w, [])
  else
    match manifest_fields data with
    | None => (IllTyped, w, [])
    | Some (base_url, links) =>
        match ensure_dir (output_dir args) w with
        | None => (Raised, w, [])
        | Some w1 => main_loop args base_url links 0 0 0 w1
        end
    end.

End Renderer.

End Render.

(** ** Reference statements for the renderer *)

Module RenderSpec.

Inductive verdict := Succeeds | Fails | Aborts.

Section Attempts.

Context {W : Type} `{FileSystem W} `{Subprocess W}.

Variables (cmd : list string) (pdf_path : string).

(** What an invocation of the command in world [w] would come to: it
    returns with code 0 and leaves the expected file, it returns otherwise,
    or [subprocess.run] raises. *)
Definition attempt (w : W) : verdict :=
  match subprocess_run cmd w with
  | (Completed rc, w1) =>
      if (rc =? 0)%Z && path_exists pdf_path w1 then Succeeds else Fails
  | (RunRaises _, _) => Aborts
  end.

(** The world at the start of attempt [k + j], from the world [w] at the
    start of attempt [k], when the attempts in between fail: each is one
    invocation that returns, followed by a wait of [2 ^ attempt] seconds that
    returns too. There is no such world when one of these calls raises. *)
Fixpoint world_at (k j : nat) (w : W) : option W :=
  match j with
  | O => Some w
  | S j' =>
      match subprocess_run cmd w with
      | (Completed _, w1) =>
          match sleep (2 ^ Z.of_nat k) w1 with
          | Some w2 => world_at (S k) j' w2
          | None => None
          end
      | (RunRaises _, _) => None
      end
  end.

(** What attempt [k + j] would come to. *)
Definition attempt_at (k j : nat) (w : W) : option verdict :=
  match world_at k j w with
  | Some wj => Some (attempt wj)
  | None => None
  end.

(** The log of [n] invocations from attempt [k] on, with the waits between
    them. *)
Fixpoint backoff_log (k n : nat) : list event :=
  match n with
  | O => []
  | S n' =>
      Run cmd :: match n' with
                 | O => []
                 | S _ => Sleep (2 ^ Z.of_nat k) :: backoff_log (S k) n'
                 end
  end.

(** How a call may end whose last invocation is attempt [k + j], of the
    attempts [k], ..., [k + n - 1]: with 0 and the file when that attempt
    succeeds; when it fails, with another code if it is the last attempt,
    and else with the exception of the [time.sleep] after it; with the
    exception of [subprocess.run] when that raises. *)
Definition ending (k j n : nat) (w : W) (r : returned) (w' : W)
    (log : list event) : Prop :=
  match attempt_at k j w with
  | Some Succeeds =>
      r = Return 0 /\ log = backoff_log k (S j) /\ path_exists pdf_path w' = true
  | Some Fails =>
      (S j = n /\ (exists code, code <> 0%Z /\ r = Return code)
       /\ log = backoff_log k (S j))
      \/ (S j < n /\ world_at k (S j) w = None /\ r = SleepError
          /\ log = backoff_log k (S j) ++ [Sleep (2 ^ Z.of_nat (k + j))])
  | Some Aborts => r = RunError /\ log = backoff_log k (S j)
  | None => False
  end.

End Attempts.

(** The URL of a record as claimed: base and relative part with exactly one
    slash between them. *)
Definition joined_url (base_url : string) (link : LinkRecord) : string :=
  Py.rstrip_chars "/" base_url +:+ "/" +:+ Py.lstrip_by (fun c => Ascii.eqb c "/") (url link).

End RenderSpec.

Module Trace.

(** The waits of a log, in order. *)
Fixpoint waits (log : list event) : list Z :=
  match log with
  | [] => []
  | Run _ :: rest => waits rest
  | Sleep s :: rest => s :: waits rest
  end.

End Trace.

(** ** The merger, [merge_pdfs.py] *)

(** A page object of the PDF library, identified by a number. *)
Definition page : Type := nat.

(** What reading one file does inside the [try] of the merge loop:
    [Readable ps] when [PdfReader], [len(reader.pages)] and every
    [writer.add_page] succeed, [ps] being [reader.pages];
    [Unreadable added] when one of them raises after [added] pages of the
    file went into the writer (none when [PdfReader] itself raises). *)
Inductive pdf_read :=
| Readable (pages : list page)
| Unreadable (added : list page).

(** The [PdfWriter] object: its pages and its outline, each entry a title
    and a 0-based page number. *)
Record PdfWriter := {
  pages : list page;
  outline : list (string * nat)
}.

(** The PDF library and the output file. [outline_item_ok t n wr] tells
    whether [wr.add_outline_item(title=t, page_number=n)] returns rather than
    raises; [write_pdf p wr] is the [open(p, 'wb')], [writer.write] and
    [os.path.getsize(p)] of the merger: the new world and the size of the
    file, or no size when one of them raises. *)
Class PdfLib (W : Type) := {
  PdfReader : string -> W -> pdf_read;
  outline_item_ok : string -> nat -> PdfWriter -> bool;
  write_pdf : string -> PdfWriter -> W -> W * option Z
}.

(** An entry of [pdf_files]. *)
Record PdfFile := {
  path : string;
  pf_title : string;
  pf_url : string
}.

(** An entry of [bookmarks]. *)
Record Bookmark := {
  bm_title : string;
  bm_page : nat;
  bm_page_count : nat
}.

(** The dict returned by [merge_pdfs_with_bookmarks] when [success] is
    [True]. *)
Record MergeInfo := {
  output_path : string;
  file_size : Z;
  page_count : nat;
  processed_count : nat;
  error_count : nat;
  bookmarks_count : nat;
  bookmarks : list Bookmark
}.

Inductive MergeResult :=
| MergeOk (info : MergeInfo)
| MergeFailed.

Definition success (r : MergeResult) : bool :=
  match r with MergeOk _ => true | MergeFailed => false end.

(** The manifest as the merger reads it. *)
Record Manifest := {
  totalCount : Z;
  baseUrl : string;
  links : list LinkRecord
}.

Module Merge.

(** The local variables of the merge loop: the pages of [writer],
    [processed_count], [error_count], [bookmarks] and [current_page]. *)
Record Acc := {
  writer : list page;
  processed : nat;
  errors : nat;
  marks : list Bookmark;
  current_page : nat
}.

Definition init : Acc :=
  {| writer := []; processed := 0; errors := 0; marks := []; current_page := 0 |}.

(** A manifest of the extractor's form, from its JSON. *)
Definition to_manifest (data : json) : option Manifest :=
  match Json.get "totalCount" data, Json.get "baseUrl" data, Json.get "links" data with
  | Some (JInt n), Some (JStr b), Some (JList items) =>
      match Json.to_links items with
      | Some ls => Some {| totalCount := n; baseUrl := b; links := ls |}
      | None => None
      end
  | _, _, _ => None
  end.

Section Merger.

Context {W : Type} `{FileSystem W} `{PdfLib W}.

(** [read_json_file]: [None] when reading or parsing raises. *)
Definition read_json_file (file_path : string) (w : W) : option json :=
  json_load file_path w.

(** The body of the loop of [get_pdf_files_in_order]. *)
Definition collect_step (pdf_dir : string) (w : W)
    (pdf_files : list PdfFile) (link : LinkRecord) : list PdfFile :=
  let file_name := file_name link in
  let pdf_path := OsPath.join pdf_dir [file_name] in
  if path_exists pdf_path w then
    pdf_files ++ [ {| path := pdf_path; pf_title := title link; pf_url := url link |} ]
  else pdf_files.

(** [get_pdf_files_in_order] *)
Definition get_pdf_files_in_order (json_data : Manifest) (pdf_dir : string) (w : W)
    : list PdfFile :=
  if negb (path_exists pdf_dir w) then []
  else fold_left (collect_step pdf_dir w) (links json_data) [].

(** The body of the first loop of [merge_pdfs_with_bookmarks]. *)
Definition merge_step (w : W) (a : Acc) (pdf_file : PdfFile) : Acc :=
  match PdfReader (path pdf_file) w with
  | Readable ps =>
      let page_count := length ps in
      {| writer := writer a ++ ps;
         processed := S (processed a);
         errors := errors a;
         marks :=
           if 0 <? page_count then
             marks a ++ [ {| bm_title := pf_title pdf_file;
                             bm_page := current_page a;
                             bm_page_count := page_count |} ]
           else marks a;
         current_page :=
           if 0 <? page_count then current_page a + page_count
           else current_page a |}
  | Unreadable added =>
      {| writer := writer a ++ added;
         processed := processed a;
         errors := S (errors a);
         marks := marks a;
         current_page := current_page a |}
  end.

(** The body of the loop that attaches the bookmarks. *)
Definition outline_step (wr : PdfWriter) (bookmark : Bookmark) : PdfWriter :=
  if outline_item_ok (bm_title bookmark) (bm_page bookmark) wr then
    {| pages := pages wr;
       outline := outline wr ++ [(bm_title bookmark, bm_page bookmark)] |}
  else wr.

(** [merge_pdfs_with_bookmarks]: the returned dict, the writer as it is
    handed to [writer.write], and the world after the call. *)
Definition merge_pdfs_with_bookmarks (pdf_files : list PdfFile) (output_path : string)
    (w : W) : MergeResult * PdfWriter * W :=
  let a := fold_left (merge_step w) pdf_files init in
  let wr := fold_left outline_step (marks a) {| pages := writer a; outline := [] |} in
  match write_pdf output_path wr w with
  | (w1, Some file_size) =>
      (MergeOk {| output_path := output_path;
                  file_size := file_size;
                  page_count := current_page a;
                  processed_count := processed a;
                  error_count := errors a;
                  bookmarks_count := length (marks a);
                  bookmarks := marks a |}, wr, w1)
  | (w1, None) => (MergeFailed, wr, w1)
  end.

(** [main]: the exit code and the result of the merge when it ran; [None]
    for a manifest that is not of the extractor's form. *)
Definition main (json_path pdf_dir output : string) (w : W)
    : option (Z * option MergeResult * W) :=
  match read_json_file json_path w with
  | None => Some (1%Z, None, w)
  | Some data =>
      if negb (Json.truthy data) then Some (1%Z, None, w)
      else
        match to_manifest data with
        | None => None
        | Some json_data =>
            let pdf_files := get_pdf_files_in_order json_data pdf_dir w in
            match pdf_files with
            | [] => Some (1%Z, None, w)
            | _ =>
                let '(result, _, w1) := merge_pdfs_with_bookmarks pdf_files output w in
                Some (if success result then 0%Z else 1%Z, Some result, w1)
            end
        end
  end.

End Merger.

End Merge.

(** ** Reference statements for the merger *)

(** What the merger finds for a record of the manifest. *)
Inductive file_status :=
| Missing
| Corrupt
| Valid.

#[global] Instance file_status_eq_dec : EqDecision file_status.
Proof. solve_decision. Defined.

Module MergeSpec.

(** The number of pages of the documents before position [i]. *)
Definition pages_before (i : nat) (pss : list (list page)) : nat :=
  sum_list (length <$> take i pss).

(** The bookmark of document [i], from the position [offset] on. *)
Definition entry (offset : nat) (docs : list (PdfFile * list page))
    (i : nat) (d : PdfFile * list page) : Bookmark :=
  {| bm_title := pf_title (fst d);
     bm_page := offset + pages_before i (snd <$> docs);
     bm_page_count := length (snd d) |}.

(** The bookmarks as claimed: one for each document, at the number of pages
    before it. *)
Definition claimed_bookmarks (pdf_files : list PdfFile) (pss : list (list page))
    : list Bookmark :=
  imap (entry 0 (zip pdf_files pss)) (zip pdf_files pss).

(** The same, for the documents that have a page. *)
Definition expected_bookmarks (pdf_files : list PdfFile) (pss : list (list page))
    : list Bookmark :=
  filter (fun b => 0 < bm_page_count b) (claimed_bookmarks pdf_files pss).

(** Was the file read? *)
Definition is_readable (r : pdf_read) : bool :=
  match r with Readable _ => true | Unreadable _ => false end.

(** The entry of [pdf_files] for a record of the manifest. *)
Definition file_of (pdf_dir : string) (link : LinkRecord) : PdfFile :=
  {| path := OsPath.join pdf_dir [file_name link];
     pf_title := title link;
     pf_url := url link |}.

(** The outline entry of a bookmark. *)
Definition outline_entry (b : Bookmark) : string * nat := (bm_title b, bm_page b).

Section Status.

Context {W : Type} `{FileSystem W} `{PdfLib W}.

Definition status (pdf_dir : string) (w : W) (link : LinkRecord) : file_status :=
  let pdf_path := OsPath.join pdf_dir [file_name link] in
  if path_exists pdf_path w then
    match PdfReader pdf_path w with
    | Readable _ => Valid
    | Unreadable _ => Corrupt
    end
  else Missing.

End Status.

End MergeSpec.

(** ** A scripted world

    A world for running the three stages on concrete inputs: a table of
    files, and the script of the rendering command. Each invocation of the
    command consumes the head of the script: its return code and the file it
    leaves behind, if any. With the script used up the command fails. In a
    [garbled] world the output of the command does not decode as text. *)

Inductive content :=
| CText (s : string)
| CJson (v : json)
| CPdf (r : pdf_read)
| CDir.

Record fake := {
  files : gmap string content;
  script : list (Z * option string);
  garbled : bool
}.

Module Fake.

Definition put (p : string) (c : content) (w : fake) : fake :=
  {| files := <[p := c]> (files w); script := script w; garbled := garbled w |}.

Definition exists_ (p : string) (w : fake) : bool :=
  match files w !! p with Some _ => true | None => false end.

Definition read (p : string) (w : fake) : option string :=
  match files w !! p with Some (CText s) => Some s | _ => None end.

Definition mkdirs (d : string) (w : fake) : option fake :=
  if Py.truthy d then
    match files w !! d with
    | None | Some CDir => Some (put d CDir w)
    | Some _ => None
    end
  else None.

Definition dump (p : string) (v : json) (w : fake) : option fake :=
  match files w !! p with
  | Some CDir => None
  | _ => Some (put p (CJson v) w)
  end.

Definition load (p : string) (w : fake) : option json :=
  match files w !! p with Some (CJson v) => Some v | _ => None end.

(** The command as the script has it: its exit code and the world it
    leaves. *)
Definition command_runs (w : fake) : Z * fake :=
  match script w with
  | [] => (1%Z, w)
  | (rc, made) :: rest =>
      (rc, {| files := match made with
                       | Some p => <[p := CPdf (Readable [0])]> (files w)
                       | None => files w
                       end;
              script := rest;
              garbled := garbled w |})
  end.

(** [subprocess.run]: a NUL character in an argument is refused before the
    command starts, and output that does not decode is an exception after
    it ended. *)
Definition run (cmd : list string) (w : fake) : completed * fake :=
  if existsb (Py.mem "000"%char) cmd then (RunRaises None, w)
  else
    let '(rc, w1) := command_runs w in
    (if garbled w then RunRaises (Some rc) else Completed rc, w1).

(** [time.sleep]: the seconds are kept as nanoseconds in 64 bits. *)
Definition nap (seconds : Z) (w : fake) : option fake :=
  if (0 <=? seconds)%Z && (seconds <=? 9223372036)%Z then Some w else None.

Definition reader (p : string) (w : fake) : pdf_read :=
  match files w !! p with Some (CPdf r) => r | _ => Unreadable [] end.

Definition write (p : string) (wr : PdfWriter) (w : fake) : fake * option Z :=
  match files w !! p with
  | Some CDir => (w, None)
  | _ => (put p (CPdf (Readable (pages wr))) w, Some (Z.of_nat (length (pages wr))))
  end.

#[global, refine] Instance fs : FileSystem fake := {|
  path_exists := exists_;
  read_text := read;
  makedirs := mkdirs;
  json_dump := dump;
  json_load := load;
  json_load_dump := _
|}.
Proof.
  intros p v w w'. unfold dump, load, put.
  destruct (files w !! p) as [[]|]; intros [= <-]; simpl;
    by rewrite lookup_insert_eq.
Defined.

#[global] Instance proc : Subprocess fake := {|
  subprocess_run := run;
  sleep := nap
|}.

#[global] Instance pdf : PdfLib fake := {|
  PdfReader := reader;
  outline_item_ok := fun _ n wr => n <? length (pages wr);
  write_pdf := write
|}.

(** A world from a list of files and a script. *)
Definition world (fs : list (string * content)) (s : list (Z * option string)) : fake :=
  {| files := list_to_map fs; script := s; garbled := false |}.


End Fake.

(** ** Sample inputs *)

Module Sample.

(** A table of contents: one anchor for each pair of an [href] and a text. *)
Definition toc (entries : list (string * string)) : node :=
  Element "html" []
    [Element "body" []
       (map (fun e => Element "a" [("href", fst e)] [Text (snd e)]) entries)].

(** A parser that knows one document. *)
Definition parser (doc : node) : string -> option node := fun _ => Some doc.

Definition no_world : fake := Fake.world [] [].

Definition two_links : list LinkRecord :=
  [mkLink "/a" "A" "A.pdf"; mkLink "/b" "B" "B.pdf"].

(** The world after the extractor wrote a manifest of two links. *)
Definition written : fake :=
  default no_world
    (Extract.write_extracted_json two_links "https://example.com"
       "./data/extracted_urls.json" no_world).

End Sample.

Module SampleRun.

Definition args : Args :=
  {| json_path := "./data/extracted_urls.json";
     output_dir := "./data/pdfs";
     max_retries := 3;
     selector := None;
     proxy := None;
     proxy_username := None;
     proxy_password := None |}.

Definition chapter1 : LinkRecord := mkLink "/chapter1" "Chapter 1" "Chapter 1.pdf".
Definition chapter2 : LinkRecord := mkLink "chapter2" "Chapter 2" "Chapter 2.pdf".

Definition manifest : json :=
  Extract.payload [chapter1; chapter2] "https://example.com".

(** The manifest is there, nothing is rendered yet, and the command does
    what the script says. *)
Definition start (script : list (Z * option string)) : fake :=
  Fake.world [("./data/extracted_urls.json", CJson manifest)] script.


(** The command fails twice, then renders the first chapter. *)
Definition third_time : fake :=
  start [(1%Z, None); (0%Z, None); (0%Z, Some "./data/pdfs/Chapter 1.pdf")].

(** The command renders both chapters at once. *)
Definition rendering : fake :=
  start [(0%Z, Some "./data/pdfs/Chapter 1.pdf");
         (0%Z, Some "./data/pdfs/Chapter 2.pdf")].

(** The world after a first run of the renderer in [rendering]. *)
Definition rendered : fake := snd (fst (Render.main "/src" args rendering)).




End SampleRun.

Module SampleMerge.

Definition record (name : string) : LinkRecord :=
  mkLink ("/" +:+ name) name (name +:+ ".pdf").

Definition manifest (names : list string) : Manifest :=
  {| totalCount := Z.of_nat (length names);
     baseUrl := "https://example.com";
     links := record <$> names |}.

(** Three records: the file of [A] has two pages, the file of [B] is
    missing and the file of [C] cannot be read. *)
Definition damaged : fake :=
  Fake.world [("./data/pdfs", CDir);
              ("./data/pdfs/A.pdf", CPdf (Readable [1; 2]));
              ("./data/pdfs/C.pdf", CPdf (Unreadable []))] [].

(** Three files that are read; the second has no page. *)
Definition with_empty : fake :=
  Fake.world [("./data/pdfs", CDir);
              ("./data/pdfs/A.pdf", CPdf (Readable [1; 2]));
              ("./data/pdfs/B.pdf", CPdf (Readable []));
              ("./data/pdfs/C.pdf", CPdf (Readable [3]))] [].

Definition found (w : fake) : list PdfFile :=
  Merge.get_pdf_files_in_order (manifest ["A"; "B"; "C"]) "./data/pdfs" w.

Definition merged (w : fake) : MergeResult * PdfWriter * fake :=
  Merge.merge_pdfs_with_bookmarks (found w) "./data/merged.pdf" w.

End SampleMerge.

Module SamplePipeline.

Definition toc : node := Sample.toc [("/a", "A"); ("/b", "A")].

(** A table of contents to extract, and a command that renders twice. *)
Definition start : fake :=
  Fake.world [("toc.html", CText "<a href=/a>A</a><a href=/b>A</a>")]
    [(0%Z, Some "./data/pdfs/A.pdf"); (0%Z, Some "./data/pdfs/A_2.pdf")].

Definition extracted : fake :=
  default start
    (Extract.main (Sample.parser toc) "toc.html" "https://example.com/book"
       "./data/extracted_urls.json" start).

Definition rendered : outcome * fake * list event :=
  Render.main "/src" SampleRun.args extracted.

Definition merged : option (Z * option MergeResult * fake) :=
  Merge.main "./data/extracted_urls.json" "./data/pdfs" "./data/merged.pdf"
    (snd (fst rendered)).

End SamplePipeline.

(** ** Shapes of strings *)

Module Text.

(** Do all characters of [s] satisfy [p]? *)
Fixpoint all_chars (p : ascii -> bool) (s : string) : bool :=
  match s with
  | EmptyString => true
  | String c rest => p c && all_chars p rest
  end.

(** The characters [safe_title] keeps. *)
Definition safe_char (c : ascii) : bool := Py.isalnum c || Py.mem c " -_.".

Definition not_space (c : ascii) : bool := negb (Py.isspace c).

(** Is every white space character of [s] a single space that is followed
    by a character that is not white space? *)
Fixpoint single_spaced (s : string) : bool :=
  match s with
  | EmptyString => true
  | String c rest =>
      (if Py.isspace c then Ascii.eqb c " " && Py.starts_word rest else true)
      && single_spaced rest
  end.

End Text.

Module Wait.

(** The seconds slept in a log, in all. *)
Definition total (log : list event) : Z := foldr Z.add 0%Z (Trace.waits log).

End Wait.

Module SampleLimit.

(** The arguments of [SampleRun] with the retry limit [-1]. *)
Definition negative : Args :=
  {| json_path := json_path SampleRun.args;
     output_dir := output_dir SampleRun.args;
     max_retries := -1;
     selector := None;
     proxy := None;
     proxy_username := None;
     proxy_password := None |}.

End SampleLimit.

(** ** Further reference statements for the merger *)

Module MergeFacts.

(** Do the bookmarks [bs] tile the pages from [offset] up to [stop]: each
    begins where the one before ends and has at least one page? *)
Fixpoint tiles (offset : nat) (bs : list Bookmark) (stop : nat) : Prop :=
  match bs with
  | [] => offset = stop
  | b :: rest =>
      bm_page b = offset /\ 0 < bm_page_count b
      /\ tiles (offset + bm_page_count b) rest stop
  end.

Section Reads.

Context {W : Type} `{PdfLib W}.

(** The pages a file leaves in the writer although reading it fails. *)
Definition stray (w : W) (f : PdfFile) : nat :=
  match PdfReader (path f) w with
  | Readable _ => 0
  | Unreadable added => length added
  end.

(** The files that are read, each with its pages, in order. *)
Definition read_docs (w : W) (pdf_files : list PdfFile) : list (PdfFile * list page) :=
  omap (fun f => match PdfReader (path f) w with
                 | Readable ps => Some (f, ps)
                 | Unreadable _ => None
                 end) pdf_files.

End Reads.

End MergeFacts.

Module SampleTorn.

(** Three files: the second fails after one of its pages went into the
    writer. *)
Definition torn : fake :=
  Fake.world [("./data/pdfs", CDir);
              ("./data/pdfs/A.pdf", CPdf (Readable [1; 2]));
              ("./data/pdfs/B.pdf", CPdf (Unreadable [7]));
              ("./data/pdfs/C.pdf", CPdf (Readable [3]))] [].

(** Two files, none of which can be read, and the manifest that names
    them. *)
Definition unreadable : fake :=
  Fake.world [("./data/extracted_urls.json",
               CJson (Extract.payload (SampleMerge.record <$> ["A"; "B"])
                        "https://example.com"));
              ("./data/pdfs", CDir);
              ("./data/pdfs/A.pdf", CPdf (Unreadable []));
              ("./data/pdfs/B.pdf", CPdf (Unreadable []))] [].

(** The manifest without any rendered file. *)
Definition unrendered : fake :=
  Fake.world [("./data/extracted_urls.json",
               CJson (Extract.payload (SampleMerge.record <$> ["A"; "B"])
                        "https://example.com"));
              ("./data/pdfs", CDir)] [].

Definition found (w : fake) : list PdfFile :=
  Merge.get_pdf_files_in_order (SampleMerge.manifest ["A"; "B"]) "./data/pdfs" w.

End SampleTorn.

(** * Properties *)

(** ** Strings *)

Lemma split_nil_iff s : Py.split s = [] <-> ExtractSpec.has_text s = false.
Proof.
  induction s as [|c s IH]; simpl; [done|].
  destruct (Py.isspace c); simpl; [done|].
  destruct (Py.starts_word s); [destruct (Py.split s)|]; done.
Qed.

Lemma split_head_starts_word s w ws :
  Py.split s = w :: ws -> Py.starts_word w = true.
Proof.
  revert w ws. induction s as [|c s IH]; intros w ws; simpl; [done|].
  destruct (Py.isspace c) eqn:Hc; [by eauto|].
  destruct (Py.starts_word s); [destruct (Py.split s)|];
    intros [= <- <-]; simpl; by rewrite Hc.
Qed.

Lemma join_starts_word sep w ws :
  Py.starts_word w = true -> Py.starts_word (Py.join sep (w :: ws)) = true.
Proof. destruct w, ws; done. Qed.

Lemma strip_starts_word s :
  Py.starts_word s = true -> Py.truthy (Py.strip s) = true.
Proof.
  destruct s as [|c s]; [done|]. unfold Py.strip. simpl.
  destruct (Py.isspace c) eqn:Hc; [done|]. intros _. simpl.
  destruct (Py.rstrip_by Py.isspace s); [by rewrite Hc|done].
Qed.

(** The test [if title.strip():] of the extractor holds exactly when the
    text of the anchor is not blank. *)
Lemma title_truthy_iff s :
  Py.truthy (Py.strip (Py.join " " (Py.split s))) = ExtractSpec.has_text s.
Proof.
  destruct (Py.split s) as [|w ws] eqn:Hs.
  - apply split_nil_iff in Hs. by rewrite Hs.
  - rewrite strip_starts_word.
    + destruct (ExtractSpec.has_text s) eqn:Ht; [done|].
      apply split_nil_iff in Ht. congruence.
    + eapply join_starts_word, split_head_starts_word, Hs.
Qed.

Lemma string_app_cons c (a b : string) : String c a +:+ b = String c (a +:+ b).
Proof. done. Qed.

Lemma filter_app_string p (a b : string) :
  Py.filter p (a +:+ b) = Py.filter p a +:+ Py.filter p b.
Proof.
  induction a as [|c a IH]; [done|]. rewrite string_app_cons. cbn [Py.filter].
  destruct (p c); by rewrite ?string_app_cons, IH.
Qed.

Lemma rstrip_by_app p (a b : string) :
  Py.rstrip_by p b = b -> b <> "" -> Py.rstrip_by p (a +:+ b) = a +:+ b.
Proof.
  intros Hb Hne. induction a as [|c a IH]; [done|].
  rewrite string_app_cons. cbn [Py.rstrip_by]. rewrite IH.
  destruct (a +:+ b) eqn:E; [|done].
  destruct a; [change (b = "") in E; congruence|by rewrite string_app_cons in E].
Qed.

Lemma word_rstrip w : ExtractSpec.is_word w -> Py.rstrip_by Py.isspace w = w.
Proof.
  intros [Hne Hns]. induction w as [|c w IH]; [done|].
  cbn in Hns. destruct (Py.isspace c) eqn:Hc; [done|].
  cbn. rewrite Hc. destruct w as [|c' w]; [done|]. by rewrite IH.
Qed.

Lemma word_starts w : ExtractSpec.is_word w -> Py.starts_word w = true.
Proof.
  intros [Hne Hns]. destruct w as [|c w]; [done|].
  cbn in *. by destruct (Py.isspace c).
Qed.

(** The parts of [s.split()] are words. *)
Lemma split_words s : Forall ExtractSpec.is_word (Py.split s).
Proof.
  induction s as [|c s IH]; cbn; [by constructor|].
  destruct (Py.isspace c) eqn:Hc; [done|].
  assert (Hone : ExtractSpec.is_word (String c "")) by (split; [done|cbn; by rewrite Hc]).
  destruct (Py.starts_word s); [|by constructor].
  destruct (Py.split s) as [|w ws]; [by constructor|].
  apply Forall_cons in IH as [[Hne Hns] Hws]. constructor; [|done].
  split; [done|]. cbn. by rewrite Hc.
Qed.

Lemma join_words_stripped ws :
  Forall ExtractSpec.is_word ws ->
  Py.rstrip_by Py.isspace (Py.join " " ws) = Py.join " " ws
  /\ (ws <> [] -> Py.join " " ws <> "").
Proof.
  induction 1 as [|w ws Hw Hws [IH1 IH2]]; [done|].
  destruct ws as [|w' ws].
  - cbn. split; [by apply word_rstrip|]. intros _. apply Hw.
  - cbn [Py.join]. split.
    + apply rstrip_by_app.
      * apply (rstrip_by_app _ " "); [done|by apply IH2].
      * done.
    + intros _. destruct Hw as [Hne _]. by destruct w.
Qed.

(** The title of a record has no white space at its ends: [strip] changes
    nothing after [' '.join(title.split())]. *)
Lemma strip_join_split s :
  Py.strip (Py.join " " (Py.split s)) = Py.join " " (Py.split s).
Proof.
  pose proof (split_words s) as Hws. unfold Py.strip.
  destruct (Py.split s) as [|w ws] eqn:Hs; [done|].
  assert (Hstart : Py.starts_word (Py.join " " (w :: ws)) = true).
  { apply join_starts_word, word_starts. by apply Forall_cons in Hws as [? _]. }
  destruct (Py.join " " (w :: ws)) as [|c t] eqn:Hj; [done|].
  cbn in Hstart. cbn [Py.lstrip_by].
  destruct (Py.isspace c); [done|]. rewrite <- Hj.
  by apply join_words_stripped.
Qed.

Lemma join_cons_char sep c w ws :
  Py.join sep (String c w :: ws) = String c (Py.join sep (w :: ws)).
Proof. by destruct ws. Qed.

(** [' '.join(title.split())] keeps the characters that are not white
    space, in their order. *)
Lemma join_split_text s :
  Py.filter (fun c => negb (Py.isspace c)) (Py.join " " (Py.split s))
  = Py.filter (fun c => negb (Py.isspace c)) s.
Proof.
  induction s as [|c s IH]; [done|]. cbn [Py.split Py.filter].
  destruct (Py.isspace c) eqn:Hc; cbn [negb]; [done|].
  rewrite <- IH. destruct (Py.starts_word s) eqn:Hst.
  - destruct (Py.split s) as [|w ws] eqn:Hs.
    + apply split_nil_iff in Hs. destruct s as [|c' s]; [done|].
      cbn in Hst, Hs. by destruct (Py.isspace c').
    + rewrite join_cons_char. cbn [Py.filter]. by rewrite Hc.
  - rewrite join_cons_char. cbn [Py.filter]. rewrite Hc. cbn [negb]. f_equal.
    by destruct (Py.split s) as [|w ws].
Qed.

(** ** The link extractor *)

Lemma extract_step_followable matches a :
  Extract.extract_step matches a =
    matches ++ (if ExtractSpec.followable a then [ExtractSpec.record_of a] else []).
Proof.
  unfold Extract.extract_step, ExtractSpec.followable, ExtractSpec.record_of,
    ExtractSpec.display_text, ExtractSpec.href.
  destruct (Dom.get "href" a) as [h|]; simpl; [|by rewrite app_nil_r].
  destruct (Py.truthy h); simpl; [|by rewrite app_nil_r].
  rewrite title_truthy_iff.
  destruct (ExtractSpec.has_text _); [done|by rewrite app_nil_r].
Qed.

Lemma extract_loop anchors matches :
  fold_left Extract.extract_step anchors matches =
    matches ++ map ExtractSpec.record_of (List.filter ExtractSpec.followable anchors).
Proof.
  revert matches. induction anchors as [|a l IH]; intros matches; simpl.
  - by rewrite app_nil_r.
  - rewrite IH, extract_step_followable.
    destruct (ExtractSpec.followable a); simpl; by rewrite <- app_assoc.
Qed.

(** The anchors looked at are the elements [a] with an [href] attribute
    among all nodes of the document, in document order. *)
Lemma nodes_xpath doc :
  Dom.xpath_a_href doc = List.filter Dom.is_a_href (Dom.nodes doc).
Proof.
  revert doc. fix IH 1. intros [s|tag a children]; [done|].
  cbn [Dom.xpath_a_href Dom.nodes List.filter].
  destruct (Dom.is_a_href (Element tag a children)); cbn [app]; [f_equal|];
    (induction children as [|c cs IHcs]; [done|];
     rewrite List.filter_app, <- IH, <- IHcs; done).
Qed.

(** When the parser raises, nothing is extracted. *)
Lemma extract_parse_failure fromstring html_content :
  fromstring html_content = None ->
  Extract.extract_urls_from_html fromstring html_content = [].
Proof. intros Hdoc. unfold Extract.extract_urls_from_html. by rewrite Hdoc. Qed.

(** C6, as amended: the extractor yields, in document order, exactly one
    record for each anchor that has a non-empty [href] attribute and a text
    that is not blank; an anchor with an empty [href] or with an empty or
    blank text yields none. *)
Theorem extract_records fromstring html_content doc :
  fromstring html_content = Some doc ->
  Extract.extract_urls_from_html fromstring html_content = ExtractSpec.records doc.
Proof.
  intros Hdoc.
  unfold Extract.extract_urls_from_html, ExtractSpec.records, ExtractSpec.anchors.
  rewrite Hdoc, <- nodes_xpath. apply extract_loop.
Qed.

Lemma extract_records_witness :
  Extract.extract_urls_from_html
    (Sample.parser (Sample.toc [("/a", "A"); ("", "B"); ("/c", "  ")]))
    "<a href=/a>A</a><a href>B</a><a href=/c>  </a>"
  = ExtractSpec.records (Sample.toc [("/a", "A"); ("", "B"); ("/c", "  ")]).
Proof. apply extract_records. reflexivity. Defined.

(** C6 as stated fails: an anchor that carries an [href] attribute with an
    empty value and has a text yields no record. *)
Lemma extract_empty_href_counterexample :
  Extract.extract_urls_from_html (Sample.parser (Sample.toc [("", "X")]))
    "<a href>X</a>" = []
  /\ ExtractSpec.claimed_records (Sample.toc [("", "X")])
     = [ {| url := ""; title := "X"; file_name := "X.pdf" |} ].
Proof. split; reflexivity. Qed.

Lemma occurrences_snoc name pre l :
  ExtractSpec.occurrences name (pre ++ [l])
  = ExtractSpec.occurrences name pre + (if decide (file_name l = name) then 1 else 0).
Proof.
  unfold ExtractSpec.occurrences. rewrite filter_app, length_app. f_equal.
  rewrite filter_cons. by destruct (decide (file_name l = name)).
Qed.

(** The numbering loop: [title_dict] holds, for each file name seen, how
    often it was seen. *)
Lemma dedup_loop rest pre (title_dict : gmap string nat) out :
  (forall name,
     title_dict !! name
     = match ExtractSpec.occurrences name pre with O => None | S n => Some (S n) end) ->
  snd (fold_left Extract.dedup_step rest (title_dict, out))
  = out ++ imap (fun i l =>
                   ExtractSpec.numbered
                     (ExtractSpec.occurrences (file_name l) (pre ++ take i rest)) l)
             rest.
Proof.
  revert pre title_dict out.
  induction rest as [|l rest IH]; intros pre title_dict out Hdict.
  - cbn. by rewrite app_nil_r.
  - cbn [fold_left imap take]. rewrite app_nil_r. unfold Extract.dedup_step at 2.
    rewrite Hdict.
    assert (Hnext : forall count,
      count = S (ExtractSpec.occurrences (file_name l) pre) ->
      forall name,
        <[file_name l := count]> title_dict !! name
        = match ExtractSpec.occurrences name (pre ++ [l]) with
          | O => None | S n => Some (S n) end).
    { intros count -> name. rewrite occurrences_snoc.
      destruct (decide (file_name l = name)) as [<-|Hne].
      - rewrite lookup_insert_eq. by rewrite Nat.add_1_r.
      - rewrite lookup_insert_ne by done. by rewrite Nat.add_0_r. }
    destruct (ExtractSpec.occurrences (file_name l) pre) as [|n] eqn:Hocc.
    + rewrite (IH (pre ++ [l])) by (by apply Hnext).
      rewrite <- app_assoc. f_equal. cbn [app ExtractSpec.numbered]. f_equal.
      apply imap_ext. intros i l' _. cbn [compose take]. by rewrite <- app_assoc.
    + rewrite (IH (pre ++ [l])) by (by apply Hnext).
      rewrite <- app_assoc. f_equal. cbn [app ExtractSpec.numbered]. f_equal.
      apply imap_ext. intros i l' _. cbn [compose take]. by rewrite <- app_assoc.
Qed.

(** What the numbering of [main] does: a record keeps its file name when no
    earlier record has it; with [k] earlier records of the same file name
    [name] it is renamed to [name.rstrip('.pdf')], [_], [k + 1] and [.pdf]. *)
Lemma dedup_numbered ls :
  Extract.dedup ls
  = imap (fun i l =>
            ExtractSpec.numbered
              (ExtractSpec.occurrences (file_name l) (take i ls)) l) ls.
Proof. unfold Extract.dedup. by rewrite (dedup_loop ls []). Qed.

(** C1: what the numbering of repeated file names does on two inputs. A
    later title that already looks numbered gets the name of an earlier
    repeat, and the base of a repeated name loses every trailing [.], [p],
    [d] and [f]. *)
Theorem dedup_repeated_names :
  map file_name
      (Extract.dedup
         (Extract.extract_urls_from_html
            (Sample.parser (Sample.toc [("/1", "A"); ("/2", "A"); ("/3", "A_2")]))
            "<a href=/1>A</a><a href=/2>A</a><a href=/3>A_2</a>"))
    = ["A.pdf"; "A_2.pdf"; "A_2.pdf"]
  /\ map file_name
      (Extract.dedup
         (Extract.extract_urls_from_html
            (Sample.parser (Sample.toc [("/1", "app"); ("/2", "app")]))
            "<a href=/1>app</a><a href=/2>app</a>"))
    = ["app.pdf"; "a_2.pdf"].
Proof. split; vm_compute; reflexivity. Qed.

(** ** The manifest *)

Lemma to_link_of_link l : Json.to_link (Json.of_link l) = Some l.
Proof. by destruct l. Qed.

Lemma to_links_of_links ls : Json.to_links (map Json.of_link ls) = Some ls.
Proof.
  induction ls as [|l ls IH]; [done|].
  cbn [map Json.to_links]. by rewrite to_link_of_link, IH.
Qed.

Lemma payload_truthy ls b : Json.truthy (Extract.payload ls b) = true.
Proof. done. Qed.

Lemma payload_is_dict ls b : Json.is_dict (Extract.payload ls b) = true.
Proof. done. Qed.

Lemma manifest_fields_payload ls b :
  Render.manifest_fields (Extract.payload ls b) = Some (b, ls).
Proof.
  unfold Render.manifest_fields, Extract.payload. cbn -[Json.to_links map].
  by rewrite to_links_of_links.
Qed.

Lemma to_manifest_payload ls b :
  Merge.to_manifest (Extract.payload ls b)
  = Some {| totalCount := Z.of_nat (length ls); baseUrl := b; links := ls |}.
Proof.
  unfold Merge.to_manifest, Extract.payload. cbn -[Json.to_links map].
  by rewrite to_links_of_links.
Qed.

(** C9: a manifest that was written is read back as it was: [totalCount] is
    the number of links, [baseUrl] is the base URL given, and [links] are the
    records with their field names, in their order. *)
Theorem manifest_round_trip `{FileSystem W}
    (ls : list LinkRecord) (base_url out_path : string) (w w' : W) :
  Extract.write_extracted_json ls base_url out_path w = Some w' ->
  let data := Render.read_json out_path w' in
  data = Extract.payload ls base_url
  /\ Json.get "totalCount" data = Some (JInt (Z.of_nat (length ls)))
  /\ Json.get "baseUrl" data = Some (JStr base_url)
  /\ Json.get "links" data
     = Some (JList (map (fun l => JDict [("url", JStr (url l));
                                         ("title", JStr (title l));
                                         ("file_name", JStr (file_name l))]) ls))
  /\ Merge.to_manifest data
     = Some {| totalCount := Z.of_nat (length ls); baseUrl := base_url; links := ls |}
  /\ Render.manifest_fields data = Some (base_url, ls).
Proof.
  unfold Extract.write_extracted_json, Render.read_json. intros Hw.
  destruct (makedirs (OsPath.dirname out_path) w) as [w1|]; [|done].
  apply json_load_dump in Hw. rewrite Hw. cbv zeta.
  repeat split; auto using to_manifest_payload, manifest_fields_payload.
Qed.

Lemma manifest_round_trip_witness :
  Extract.write_extracted_json Sample.two_links "https://example.com"
    "./data/extracted_urls.json" Sample.no_world = Some Sample.written
  /\ Render.read_json "./data/extracted_urls.json" Sample.written
     = Extract.payload Sample.two_links "https://example.com".
Proof.
  assert (Hw : Extract.write_extracted_json Sample.two_links "https://example.com"
                 "./data/extracted_urls.json" Sample.no_world = Some Sample.written)
    by (vm_compute; reflexivity).
  split; [exact Hw|].
  exact (proj1 (manifest_round_trip _ _ _ _ _ Hw)).
Defined.

(** ** The page renderer *)

Section RendererFacts.

Context {W : Type} `{FileSystem W} `{Subprocess W}.

Variable script_dir : string.

Lemma range_succ (m : nat) :
  Render.range (Z.of_nat m + 1) = map Z.of_nat (seq 0 (S m)).
Proof. unfold Render.range. f_equal. f_equal. lia. Qed.

Lemma backoff_log_step cmd k n :
  RenderSpec.backoff_log cmd k (S (S n))
  = Run cmd :: Sleep (2 ^ Z.of_nat k) :: RenderSpec.backoff_log cmd (S k) (S n).
Proof. done. Qed.

(** One iteration of the retry loop, by the outcome of its invocation. *)
Lemma attempts_cons cmd pdf_path max_retries attempt rest proc (w : W) :
  Render.attempts cmd pdf_path max_retries (attempt :: rest) proc w =
    match subprocess_run cmd w with
    | (RunRaises _, w1) => (RunError, w1, [Run cmd])
    | (Completed rc, w1) =>
        if (rc =? 0)%Z && path_exists pdf_path w1 then (Return 0, w1, [Run cmd])
        else if (attempt <? max_retries)%Z then
          match sleep (2 ^ attempt) w1 with
          | None => (SleepError, w1, [Run cmd; Sleep (2 ^ attempt)])
          | Some w2 =>
              let '(r, w3, log) :=
                Render.attempts cmd pdf_path max_retries rest (Some rc) w2 in
              (r, w3, Run cmd :: Sleep (2 ^ attempt) :: log)
          end
        else (Return (if (rc =? 0)%Z then 1 else rc), w1, [Run cmd])
    end.
Proof.
  cbn [Render.attempts]. destruct (subprocess_run cmd w) as [[rc|ended] w1]; [|done].
  destruct (rc =? 0)%Z; cbn [andb]; [|done].
  by destruct (path_exists pdf_path w1).
Qed.

(** The worlds of later attempts, after an invocation and a wait that both
    return. *)
Lemma world_at_succ cmd k j rc (w w1 w2 : W) :
  subprocess_run cmd w = (Completed rc, w1) ->
  sleep (2 ^ Z.of_nat k) w1 = Some w2 ->
  RenderSpec.world_at cmd k (S j) w = RenderSpec.world_at cmd (S k) j w2.
Proof. intros Hrun Hnap. cbn [RenderSpec.world_at]. by rewrite Hrun, Hnap. Qed.

Lemma attempt_at_succ cmd pdf_path k j rc (w w1 w2 : W) :
  subprocess_run cmd w = (Completed rc, w1) ->
  sleep (2 ^ Z.of_nat k) w1 = Some w2 ->
  RenderSpec.attempt_at cmd pdf_path k (S j) w
  = RenderSpec.attempt_at cmd pdf_path (S k) j w2.
Proof.
  intros Hrun Hnap. unfold RenderSpec.attempt_at.
  by rewrite (world_at_succ cmd k j rc w w1 w2 Hrun Hnap).
Qed.



(** The shape of the retry loop over the attempts [k], ..., [k + n - 1], the
    last of which is attempt [m]: some attempts fail and are followed by
    their wait, and the next one ends the call. *)
Lemma attempts_shape cmd pdf_path (m n k : nat) proc (w : W) :
  k + n = S m -> 0 < n ->
  exists j r w' log,
    j < n
    /\ (forall i, i < j ->
          RenderSpec.attempt_at cmd pdf_path k i w = Some RenderSpec.Fails)
    /\ Render.attempts cmd pdf_path (Z.of_nat m) (map Z.of_nat (seq k n)) proc w
       = (r, w', log)
    /\ RenderSpec.ending cmd pdf_path k j n w r w' log.
Proof.
  revert k proc w. induction n as [|n IH]; intros k proc w Hk Hn; [lia|].
  cbn [seq map]. rewrite attempts_cons.
  destruct (subprocess_run cmd w) as [[rc|ended] w1] eqn:Hrun.
  - destruct ((rc =? 0)%Z && path_exists pdf_path w1) eqn:Hok.
    + exists 0, (Return 0), w1, [Run cmd].
      split_and!; [lia|intros; lia|done|].
      unfold RenderSpec.ending, RenderSpec.attempt_at, RenderSpec.attempt.
      cbn [RenderSpec.world_at]. rewrite Hrun, Hok.
      split_and!; [done|done|]. by apply andb_true_iff in Hok as [_ ?].
    + destruct n as [|n].
      * replace (Z.of_nat k <? Z.of_nat m)%Z with false
          by (symmetry; apply Z.ltb_ge; lia).
        eexists 0, _, w1, [Run cmd]. split_and!; [lia|intros; lia|reflexivity|].
        unfold RenderSpec.ending, RenderSpec.attempt_at, RenderSpec.attempt.
        cbn [RenderSpec.world_at]. rewrite Hrun, Hok. left.
        split_and!; [done| |done]. eexists. split; [|reflexivity].
        destruct (rc =? 0)%Z eqn:E; [done|]. by apply Z.eqb_neq in E.
      * replace (Z.of_nat k <? Z.of_nat m)%Z with true
          by (symmetry; apply Z.ltb_lt; lia).
        destruct (sleep (2 ^ Z.of_nat k) w1) as [w2|] eqn:Hnap.
        -- destruct (IH (S k) (Some rc) w2)
             as (j & r & w' & log & Hj & Hpre & Hcall & Hend); [lia|lia|].
           rewrite Hcall.
           exists (S j), r, w', (Run cmd :: Sleep (2 ^ Z.of_nat k) :: log).
           split_and!; [lia| |done|].
           ++ intros [|i] Hi.
              ** unfold RenderSpec.attempt_at, RenderSpec.attempt.
                 cbn [RenderSpec.world_at]. by rewrite Hrun, Hok.
              ** rewrite (attempt_at_succ cmd pdf_path k i rc w w1 w2 Hrun Hnap).
                 apply Hpre. lia.
           ++ unfold RenderSpec.ending in *.
              rewrite (attempt_at_succ cmd pdf_path k j rc w w1 w2 Hrun Hnap).
              destruct (RenderSpec.attempt_at cmd pdf_path (S k) j w2) as [[]|];
                [..|done].
              ** destruct Hend as (-> & -> & Hfile). done.
              ** destruct Hend as [(Hlast & Hcode & ->)|(Hlt & Hnone & -> & ->)].
                 { left. split_and!; [lia|done|done]. }
                 { right. split_and!; [lia| |done|].
                   - by rewrite (world_at_succ cmd k (S j) rc w w1 w2 Hrun Hnap).
                   - replace (k + S j) with (S k + j) by lia. done. }
              ** destruct Hend as [-> ->]. done.
        -- exists 0, SleepError, w1, [Run cmd; Sleep (2 ^ Z.of_nat k)].
           split_and!; [lia|intros; lia|done|].
           unfold RenderSpec.ending, RenderSpec.attempt_at, RenderSpec.attempt.
           cbn [RenderSpec.world_at]. rewrite Hrun, Hok, Hnap. right.
           split_and!; [lia|done|done|]. by rewrite Nat.add_0_r.
  - exists 0, RunError, w1, [Run cmd]. split_and!; [lia|intros; lia|done|].
    unfold RenderSpec.ending, RenderSpec.attempt_at, RenderSpec.attempt.
    cbn [RenderSpec.world_at]. by rewrite Hrun.
Qed.

End RendererFacts.

Section RendererClaims.

Context {W : Type} `{FileSystem W} `{Subprocess W}.

Variable script_dir : string.

Lemma backoff_log_invocations cmd k n :
  invocations (RenderSpec.backoff_log cmd k n) = n.
Proof.
  revert k. induction n as [|[|n] IH]; intros k; [done..|].
  rewrite backoff_log_step. unfold invocations in *. cbn [List.filter is_run length].
  by rewrite IH.
Qed.

Lemma backoff_log_waits cmd k n :
  Trace.waits (RenderSpec.backoff_log cmd k (S n))
  = map (fun i => (2 ^ Z.of_nat i)%Z) (seq k n).
Proof.
  revert k. induction n as [|n IH]; intros k; [done|].
  rewrite backoff_log_step. cbn [Trace.waits seq map]. by rewrite IH.
Qed.

(** The shape of a call with a retry limit that is not negative. *)
Lemma run_node_save_shape url file_name output_dir (m : nat)
    proxy proxy_username proxy_password selector (w : W) :
  let cmd := Render.command script_dir url file_name output_dir
               proxy proxy_username proxy_password selector in
  let pdf_path := OsPath.join output_dir [file_name] in
  exists j r w' log,
    j <= m
    /\ (forall i, i < j ->
          RenderSpec.attempt_at cmd pdf_path 0 i w = Some RenderSpec.Fails)
    /\ Render.run_node_save script_dir url file_name output_dir (Z.of_nat m)
         proxy proxy_username proxy_password selector w = (r, w', log)
    /\ RenderSpec.ending cmd pdf_path 0 j (S m) w r w' log.
Proof.
  intros cmd pdf_path. unfold Render.run_node_save. rewrite range_succ.
  destruct (attempts_shape cmd pdf_path m (S m) 0 None w)
    as (j & r & w' & log & Hj & Hpre & Hcall & Hend); [lia|lia|].
  exists j, r, w', log. split_and!; [lia|done|done|done].
Qed.




(** With a negative retry limit no attempt is made and the call raises. *)
Lemma run_node_save_negative_limit url file_name output_dir max_retries
    proxy proxy_username proxy_password selector (w : W) :
  (max_retries < 0)%Z ->
  Render.run_node_save script_dir url file_name output_dir max_retries
    proxy proxy_username proxy_password selector w = (UnboundLocalError, w, []).
Proof.
  intros Hneg. unfold Render.run_node_save, Render.range.
  replace (Z.to_nat (max_retries + 1)) with 0 by lia. done.
Qed.


End RendererClaims.

Section RendererRuns.

Context {W : Type} `{FileSystem W} `{Subprocess W}.

Variable script_dir : string.


(** An exception that [run_node_save] lets through ends the loop. *)
Lemma main_loop_raised args base_url link rest success fail skipped
    r (w w1 : W) log :
  path_exists (OsPath.join (output_dir args) [file_name link]) w = false ->
  Render.run_node_save script_dir (Render.full_url base_url link) (file_name link)
    (output_dir args) (max_retries args)
    (proxy args) (proxy_username args) (proxy_password args) (selector args) w
  = (r, w1, log) ->
  (forall code, r <> Return code) ->
  Render.main_loop script_dir args base_url (link :: rest) success fail skipped w
  = (Raised, w1, log).
Proof.
  intros Hmiss Hrun Hr. cbn [Render.main_loop]. rewrite Hmiss, Hrun.
  destruct r as [code| | |]; [by destruct (Hr code)|done..].
Qed.


(** A record whose file exists is skipped: nothing is invoked for it. *)
Lemma main_loop_all_exist args base_url ls success fail skipped (w : W) :
  (forall l, l ∈ ls ->
     path_exists (OsPath.join (output_dir args) [file_name l]) w = true) ->
  Render.main_loop script_dir args base_url ls success fail skipped w
  = (Finished success fail (skipped + length ls), w, []).
Proof.
  revert skipped. induction ls as [|l ls IH]; intros skipped Hall.
  - cbn. by rewrite Nat.add_0_r.
  - cbn [Render.main_loop]. rewrite (Hall l) by apply list_elem_of_here.
    rewrite IH; [cbn [length]; do 3 f_equal; lia|].
    intros l' Hl'. apply Hall. by apply list_elem_of_further.
Qed.

Lemma main_all_exist args ls base_url (w : W) :
  json_load (json_path args) w = Some (Extract.payload ls base_url) ->
  path_exists (output_dir args) w = true ->
  (forall l, l ∈ ls ->
     path_exists (OsPath.join (output_dir args) [file_name l]) w = true) ->
  Render.main script_dir args w = (Finished 0 0 (length ls), w, []).
Proof.
  intros Hload Hdir Hall. unfold Render.main, Render.read_json, Render.ensure_dir.
  rewrite Hload, payload_truthy, payload_is_dict, manifest_fields_payload, Hdir.
  cbn [negb]. by apply main_loop_all_exist.
Qed.

(** C7: when, after a first run of the renderer, the file of every record of
    the manifest exists in the output directory, a second run on the same
    manifest and directory invokes the rendering command zero times: every
    record is skipped. *)
Theorem second_run_skips_all args ls base_url (w0 w1 : W) o1 log1 :
  Render.main script_dir args w0 = (o1, w1, log1) ->
  json_load (json_path args) w1 = Some (Extract.payload ls base_url) ->
  path_exists (output_dir args) w1 = true ->
  (forall l, l ∈ ls ->
     path_exists (OsPath.join (output_dir args) [file_name l]) w1 = true) ->
  exists log2,
    Render.main script_dir args w1 = (Finished 0 0 (length ls), w1, log2)
    /\ invocations log2 = 0.
Proof.
  intros _ Hload Hdir Hall. exists []. split; [|done].
  by apply main_all_exist with base_url.
Qed.

End RendererRuns.





Lemma second_run_skips_all_witness :
  exists log2,
    Render.main "/src" SampleRun.args SampleRun.rendered
    = (Finished 0 0 2, SampleRun.rendered, log2)
    /\ invocations log2 = 0.
Proof.
  apply (second_run_skips_all "/src" SampleRun.args
           [SampleRun.chapter1; SampleRun.chapter2] "https://example.com"
           SampleRun.rendering SampleRun.rendered
           (fst (fst (Render.main "/src" SampleRun.args SampleRun.rendering)))
           (snd (Render.main "/src" SampleRun.args SampleRun.rendering))).
  - vm_compute. reflexivity.
  - vm_compute. reflexivity.
  - vm_compute. reflexivity.
  - intros l Hl. apply list_elem_of_In in Hl.
    destruct Hl as [<-|[<-|[]]]; vm_compute; reflexivity.
Defined.

(** For a relative URL without a leading slash the join is as claimed. *)
Lemma full_url_one_slash base_url link :
  Py.startswith "/" (url link) = false ->
  Render.full_url base_url link = RenderSpec.joined_url base_url link.
Proof.
  unfold Render.full_url, RenderSpec.joined_url. intros Hu. do 2 f_equal.
  destruct (url link) as [|c u]; [done|]. cbn in *. by rewrite Hu.
Qed.

(** C3: the URL handed to the rendering command for a record whose relative
    URL begins with a slash has two slashes after the base, for a base with
    or without a trailing slash. *)
Theorem full_url_leading_slash :
  Render.full_url "https://example.com" SampleRun.chapter1
    = "https://example.com//chapter1"
  /\ Render.full_url "https://example.com/" SampleRun.chapter1
    = "https://example.com//chapter1"
  /\ RenderSpec.joined_url "https://example.com" SampleRun.chapter1
    = "https://example.com/chapter1"
  /\ snd (Render.main "/src" SampleRun.args SampleRun.rendering)
    = [Run ["node"; "/src/savepdf/savepdf.js"; "--url=https://example.com//chapter1";
            "--fileName=Chapter 1.pdf"; "--outputDir=./data/pdfs"];
       Run ["node"; "/src/savepdf/savepdf.js"; "--url=https://example.com/chapter2";
            "--fileName=Chapter 2.pdf"; "--outputDir=./data/pdfs"]].
Proof. split_and!; vm_compute; reflexivity. Qed.

(** ** The merger *)

Section MergerFacts.

Context {W : Type} `{FileSystem W} `{PdfLib W}.

Lemma merge_step_readable (w : W) a f ps :
  PdfReader (path f) w = Readable ps ->
  Merge.merge_step w a f
  = {| Merge.writer := Merge.writer a ++ ps;
       Merge.processed := S (Merge.processed a);
       Merge.errors := Merge.errors a;
       Merge.marks :=
         Merge.marks a
         ++ filter (fun b => 0 < bm_page_count b)
              [ {| bm_title := pf_title f;
                   bm_page := Merge.current_page a;
                   bm_page_count := length ps |} ];
       Merge.current_page := Merge.current_page a + length ps |}.
Proof.
  intros Hr. unfold Merge.merge_step. rewrite Hr. cbv zeta.
  destruct (0 <? length ps) eqn:E.
  - apply Nat.ltb_lt in E. by rewrite filter_cons_True.
  - apply Nat.ltb_ge in E. rewrite filter_cons_False by (cbn; lia).
    rewrite filter_nil, app_nil_r.
    replace (length ps) with 0 by lia. by rewrite Nat.add_0_r.
Qed.

Lemma merge_step_unreadable (w : W) a f added :
  PdfReader (path f) w = Unreadable added ->
  Merge.merge_step w a f
  = {| Merge.writer := Merge.writer a ++ added;
       Merge.processed := Merge.processed a;
       Merge.errors := S (Merge.errors a);
       Merge.marks := Merge.marks a;
       Merge.current_page := Merge.current_page a |}.
Proof. intros Hr. unfold Merge.merge_step. by rewrite Hr. Qed.

Lemma pages_before_cons i ps pss :
  MergeSpec.pages_before (S i) (ps :: pss) = length ps + MergeSpec.pages_before i pss.
Proof. done. Qed.

Lemma imap_entry_cons offset d docs :
  imap (MergeSpec.entry offset (d :: docs)) (d :: docs)
  = {| bm_title := pf_title (fst d); bm_page := offset; bm_page_count := length (snd d) |}
    :: imap (MergeSpec.entry (offset + length (snd d)) docs) docs.
Proof.
  cbn [imap]. f_equal.
  - unfold MergeSpec.entry, MergeSpec.pages_before. cbn. f_equal. lia.
  - apply imap_ext. intros i x _. unfold MergeSpec.entry. cbn [compose fmap list_fmap].
    rewrite pages_before_cons. f_equal. lia.
Qed.

(** The merge loop over documents that are all read. *)
Lemma merge_loop_readable (w : W) files pss a :
  Forall2 (fun f ps => PdfReader (path f) w = Readable ps) files pss ->
  fold_left (Merge.merge_step w) files a
  = {| Merge.writer := Merge.writer a ++ concat pss;
       Merge.processed := Merge.processed a + length files;
       Merge.errors := Merge.errors a;
       Merge.marks :=
         Merge.marks a
         ++ filter (fun b => 0 < bm_page_count b)
              (imap (MergeSpec.entry (Merge.current_page a) (zip files pss))
                 (zip files pss));
       Merge.current_page := Merge.current_page a + sum_list (length <$> pss) |}.
Proof.
  intros Hall. revert a. induction Hall as [|f ps files pss Hr _ IH]; intros a.
  - cbn. destruct a; cbn. by rewrite !app_nil_r, !Nat.add_0_r.
  - cbn [fold_left]. rewrite IH, (merge_step_readable w a f ps Hr).
    cbn [Merge.writer Merge.processed Merge.errors Merge.marks Merge.current_page].
    cbn [zip zip_with]. rewrite imap_entry_cons. cbn [fst snd].
    cbn [concat length].
    f_equal; [by rewrite app_assoc|lia| |cbn; lia].
    rewrite <- app_assoc. f_equal.
    destruct (decide (0 < length ps)) as [Hps|Hps].
    + by rewrite !filter_cons_True.
    + by rewrite !filter_cons_False.
Qed.

End MergerFacts.

Section MergerClaims.

Context {W : Type} `{FileSystem W} `{PdfLib W}.

Lemma length_concat_pages (pss : list (list page)) :
  length (concat pss) = sum_list (length <$> pss).
Proof. induction pss as [|ps pss IH]; [done|]. cbn. by rewrite length_app, IH. Qed.

(** A bookmark of a document that has a page points below the end. *)
Lemma entries_in_range offset (docs : list (PdfFile * list page)) :
  Forall (fun b => bm_page b < offset + sum_list (length <$> (snd <$> docs)))
    (filter (fun b => 0 < bm_page_count b) (imap (MergeSpec.entry offset docs) docs)).
Proof.
  revert offset. induction docs as [|d docs IH]; intros offset; [by constructor|].
  rewrite imap_entry_cons. cbn [fmap list_fmap sum_list sum_list_with].
  assert (Htail :
    Forall (fun b => bm_page b < offset + (length d.2 + sum_list (length <$> docs.*2)))
      (filter (fun b => 0 < bm_page_count b)
         (imap (MergeSpec.entry (offset + length d.2) docs) docs))).
  { eapply Forall_impl; [apply IH|]. intros b Hb. cbn beta in Hb. lia. }
  destruct (decide (0 < length d.2)) as [Hd|Hd].
  - rewrite filter_cons_True by done. constructor; [cbn; lia|done].
  - by rewrite filter_cons_False.
Qed.

Lemma outline_loop_pages bs wr :
  pages (fold_left Merge.outline_step bs wr) = pages wr.
Proof.
  revert wr. induction bs as [|b bs IH]; intros wr; [done|].
  cbn [fold_left]. rewrite IH. unfold Merge.outline_step.
  by destruct (outline_item_ok _ _ _).
Qed.

Lemma outline_loop_length bs wr :
  length (outline (fold_left Merge.outline_step bs wr)) <= length (outline wr) + length bs.
Proof.
  revert wr. induction bs as [|b bs IH]; intros wr; cbn [fold_left length]; [lia|].
  etrans; [apply IH|]. unfold Merge.outline_step.
  destruct (outline_item_ok _ _ _); cbn; [rewrite length_app; cbn|]; lia.
Qed.

Lemma outline_loop_attached bs wr :
  (forall t n wr', n < length (pages wr') -> outline_item_ok t n wr' = true) ->
  Forall (fun b => bm_page b < length (pages wr)) bs ->
  outline (fold_left Merge.outline_step bs wr)
  = outline wr ++ (MergeSpec.outline_entry <$> bs).
Proof.
  intros Hok. revert wr. induction bs as [|b bs IH]; intros wr Hall.
  - cbn. by rewrite app_nil_r.
  - apply Forall_cons in Hall as [Hb Hall]. cbn [fold_left].
    unfold Merge.outline_step at 2. rewrite Hok by done.
    rewrite IH by done. cbn. by rewrite <- app_assoc.
Qed.

(** The counters of the merge loop, by what reading each file gives. *)
Lemma merge_loop_counts (w : W) files a :
  let a' := fold_left (Merge.merge_step w) files a in
  Merge.processed a'
  = Merge.processed a
    + length (filter (fun f => MergeSpec.is_readable (PdfReader (path f) w)) files)
  /\ Merge.errors a'
     = Merge.errors a
       + length (filter (fun f => negb (MergeSpec.is_readable (PdfReader (path f) w))) files).
Proof.
  revert a. induction files as [|f files IH]; intros a; cbn [fold_left].
  - cbn. lia.
  - cbv zeta in *. destruct (IH (Merge.merge_step w a f)) as [-> ->].
    destruct (PdfReader (path f) w) as [ps|ps] eqn:Hr.
    + rewrite (merge_step_readable w a f ps Hr). cbn [Merge.processed Merge.errors].
      rewrite filter_cons_True by (rewrite Hr; cbn; tauto).
      rewrite filter_cons_False by (rewrite Hr; cbn; tauto). cbn. lia.
    + rewrite (merge_step_unreadable w a f ps Hr). cbn [Merge.processed Merge.errors].
      rewrite filter_cons_False by (rewrite Hr; cbn; tauto).
      rewrite filter_cons_True by (rewrite Hr; cbn; tauto). cbn. lia.
Qed.

(** The files found for a manifest: those of the records whose file exists,
    in the order of the manifest. *)
Lemma collect_loop pdf_dir (w : W) ls acc :
  fold_left (Merge.collect_step pdf_dir w) ls acc
  = acc ++ (MergeSpec.file_of pdf_dir
              <$> filter (fun l => path_exists (OsPath.join pdf_dir [file_name l]) w) ls).
Proof.
  revert acc. induction ls as [|l ls IH]; intros acc; cbn [fold_left].
  - by rewrite app_nil_r.
  - rewrite IH. unfold Merge.collect_step.
    destruct (path_exists (OsPath.join pdf_dir [file_name l]) w) eqn:E.
    + rewrite filter_cons_True by (rewrite E; cbn; tauto). by rewrite <- app_assoc.
    + rewrite filter_cons_False by (rewrite E; cbn; tauto). done.
Qed.

Lemma found_counts pdf_dir (w : W) ls :
  let found := MergeSpec.file_of pdf_dir
                 <$> filter (fun l => path_exists (OsPath.join pdf_dir [file_name l]) w) ls in
  length (filter (fun f => MergeSpec.is_readable (PdfReader (path f) w)) found)
  = length (filter (fun s => s = Valid) (MergeSpec.status pdf_dir w <$> ls))
  /\ length (filter (fun f => negb (MergeSpec.is_readable (PdfReader (path f) w))) found)
     = length (filter (fun s => s = Corrupt) (MergeSpec.status pdf_dir w <$> ls)).
Proof.
  induction ls as [|l ls [IH1 IH2]]; [done|]. cbv zeta in *.
  cbn [fmap list_fmap]. unfold MergeSpec.status at 1 3.
  destruct (path_exists (OsPath.join pdf_dir [file_name l]) w) eqn:E.
  - rewrite filter_cons_True by (rewrite E; cbn; tauto). cbn [fmap list_fmap].
    destruct (PdfReader (OsPath.join pdf_dir [file_name l]) w) eqn:Hr.
    + rewrite (filter_cons_True _ (MergeSpec.file_of pdf_dir l)) by (unfold MergeSpec.file_of; cbn [path]; rewrite Hr; cbn; tauto).
      rewrite (filter_cons_False _ (MergeSpec.file_of pdf_dir l)) by (unfold MergeSpec.file_of; cbn [path]; rewrite Hr; cbn; tauto).
      rewrite (filter_cons_True _ Valid) by done.
      rewrite (filter_cons_False _ Valid) by done. cbn [length]. by rewrite IH1, IH2.
    + rewrite (filter_cons_False _ (MergeSpec.file_of pdf_dir l)) by (unfold MergeSpec.file_of; cbn [path]; rewrite Hr; cbn; tauto).
      rewrite (filter_cons_True _ (MergeSpec.file_of pdf_dir l)) by (unfold MergeSpec.file_of; cbn [path]; rewrite Hr; cbn; tauto).
      rewrite (filter_cons_False _ Corrupt) by done.
      rewrite (filter_cons_True _ Corrupt) by done. cbn [length]. by rewrite IH1, IH2.
  - rewrite filter_cons_False by (rewrite E; cbn; tauto).
    rewrite !(filter_cons_False _ Missing) by done. done.
Qed.

End MergerClaims.

Section MergerResults.

Context {W : Type} `{FileSystem W} `{PdfLib W}.

Lemma filter_all {A} (P : A -> Prop) `{!forall x, Decision (P x)} (l : list A) :
  Forall P l -> filter P l = l.
Proof.
  induction 1 as [|x l Hx _ IH]; [done|]. by rewrite filter_cons_True, IH.
Qed.

(** The result of a merge of documents that are all read. *)
Lemma merge_readable (w : W) files pss output :
  Forall2 (fun f ps => PdfReader (path f) w = Readable ps) files pss ->
  (forall wr, is_Some (snd (write_pdf output wr w))) ->
  exists info wr w1,
    Merge.merge_pdfs_with_bookmarks files output w = (MergeOk info, wr, w1)
    /\ pages wr = concat pss
    /\ page_count info = sum_list (length <$> pss)
    /\ processed_count info = length files
    /\ error_count info = 0
    /\ bookmarks info = MergeSpec.expected_bookmarks files pss
    /\ bookmarks_count info = length (bookmarks info)
    /\ length (outline wr) <= length (bookmarks info)
    /\ ((forall t n wr', n < length (pages wr') -> outline_item_ok t n wr' = true) ->
        outline wr = MergeSpec.outline_entry <$> bookmarks info).
Proof.
  intros Hall Hwrite. unfold Merge.merge_pdfs_with_bookmarks.
  rewrite (merge_loop_readable w files pss Merge.init Hall).
  cbn [Merge.writer Merge.processed Merge.errors Merge.marks Merge.current_page
       Merge.init app Nat.add].
  match goal with |- context [write_pdf output ?wr w] =>
    destruct (Hwrite wr) as [size Hw];
    destruct (write_pdf output wr w) as [w1 written]; cbn [snd] in Hw; subst written end.
  eexists _, _, _. split; [reflexivity|].
  cbn [page_count processed_count error_count bookmarks bookmarks_count].
  split_and!; try done.
  - by rewrite outline_loop_pages.
  - etrans; [apply outline_loop_length|]. cbn. lia.
  - intros Hok. rewrite outline_loop_attached; [done|done|].
    cbn [pages]. rewrite length_concat_pages.
    pose proof (entries_in_range 0 (zip files pss)) as Hrange.
    rewrite snd_zip in Hrange; [done|].
    apply Forall2_length in Hall. lia.
Qed.

(** C4, as amended: when every file given to the merger is read, the merged
    document has the pages of the files in order, [sum(pi)] in all, and the
    bookmarks are, in order, one for each document that has at least one
    page, at the 0-based page [sum(p1..p(i-1))]; a document without pages
    gets none. When moreover the library attaches every entry that points at
    a page of the document, the outline has exactly these entries. *)
Theorem merged_bookmarks (w : W) files pss output :
  Forall2 (fun f ps => PdfReader (path f) w = Readable ps) files pss ->
  (forall t n wr, n < length (pages wr) -> outline_item_ok t n wr = true) ->
  (forall wr, is_Some (snd (write_pdf output wr w))) ->
  exists info wr w1,
    Merge.merge_pdfs_with_bookmarks files output w = (MergeOk info, wr, w1)
    /\ pages wr = concat pss
    /\ length (pages wr) = sum_list (length <$> pss)
    /\ page_count info = sum_list (length <$> pss)
    /\ bookmarks info = MergeSpec.expected_bookmarks files pss
    /\ outline wr = MergeSpec.outline_entry <$> bookmarks info
    /\ (forall i f ps,
          files !! i = Some f -> pss !! i = Some ps -> 0 < length ps ->
          {| bm_title := pf_title f;
             bm_page := MergeSpec.pages_before i pss;
             bm_page_count := length ps |} ∈ bookmarks info)
    /\ (Forall (fun ps => 0 < length ps) pss ->
        length (bookmarks info) = length files
        /\ length (outline wr) = length files).
Proof.
  intros Hall Hok Hwrite.
  destruct (merge_readable w files pss output Hall Hwrite)
    as (info & wr & w1 & Hrun & Hpages & Hcount & _ & _ & Hmarks & _ & _ & Houtline).
  specialize (Houtline Hok).
  assert (Hlen : length pss <= length files) by (apply Forall2_length in Hall; lia).
  assert (Hentry : forall i f ps,
            files !! i = Some f -> pss !! i = Some ps ->
            {| bm_title := pf_title f;
               bm_page := MergeSpec.pages_before i pss;
               bm_page_count := length ps |}
            ∈ MergeSpec.claimed_bookmarks files pss).
  { intros i f ps Hf Hps. unfold MergeSpec.claimed_bookmarks.
    assert (Hz : zip files pss !! i = Some (f, ps)).
    { apply lookup_zip_with_Some. by exists f, ps. }
    apply (elem_of_lookup_imap_2 (MergeSpec.entry 0 (zip files pss))) in Hz.
    unfold MergeSpec.entry in Hz at 1. cbn [fst snd Nat.add] in Hz.
    by rewrite snd_zip in Hz. }
  exists info, wr, w1. split_and!; try done.
  - by rewrite Hpages, length_concat_pages.
  - intros i f ps Hf Hps Hpos. rewrite Hmarks. unfold MergeSpec.expected_bookmarks.
    apply list_elem_of_filter. split; [done|]. by apply Hentry.
  - intros Hpos.
    assert (Hsame : bookmarks info = MergeSpec.claimed_bookmarks files pss).
    { rewrite Hmarks. unfold MergeSpec.expected_bookmarks. apply filter_all.
      apply Forall_forall. intros b Hb. unfold MergeSpec.claimed_bookmarks in Hb.
      apply elem_of_lookup_imap_1 in Hb as (i & [f ps] & -> & Hz).
      apply lookup_zip_with_Some in Hz as (f' & ps' & [= <- <-] & _ & Hps).
      cbn. eapply Forall_lookup_1 in Hpos; [|exact Hps]. done. }
    assert (Hn : length (bookmarks info) = length files).
    { rewrite Hsame. unfold MergeSpec.claimed_bookmarks.
      rewrite length_imap, length_zip. apply Forall2_length in Hall. lia. }
    split; [done|]. by rewrite Houtline, length_fmap.
Qed.

(** C10: a file that is read and has no page is counted as processed and
    gets no bookmark; so when the files are all read and one of them has no
    page, the result has fewer bookmarks than processed files, and the
    outline of the output has fewer entries than documents were merged. *)
Theorem empty_document_has_no_bookmark (w : W) a f files pss output :
  (PdfReader (path f) w = Readable [] ->
   Merge.processed (Merge.merge_step w a f) = S (Merge.processed a)
   /\ Merge.marks (Merge.merge_step w a f) = Merge.marks a
   /\ Merge.errors (Merge.merge_step w a f) = Merge.errors a)
  /\ (Forall2 (fun f ps => PdfReader (path f) w = Readable ps) files pss ->
      [] ∈ pss ->
      (forall wr, is_Some (snd (write_pdf output wr w))) ->
      exists info wr w1,
        Merge.merge_pdfs_with_bookmarks files output w = (MergeOk info, wr, w1)
        /\ processed_count info = length files
        /\ bookmarks_count info < processed_count info
        /\ length (outline wr) < processed_count info).
Proof.
  split.
  - intros Hr. rewrite (merge_step_readable w a f [] Hr).
    cbn [Merge.processed Merge.marks Merge.errors length].
    rewrite filter_cons_False by (cbn; lia). by rewrite filter_nil, app_nil_r.
  - intros Hall Hempty Hwrite.
    destruct (merge_readable w files pss output Hall Hwrite)
      as (info & wr & w1 & Hrun & _ & _ & Hproc & _ & Hmarks & Hn & Hout & _).
    exists info, wr, w1. split; [done|]. split; [done|].
    assert (Hlt : length (bookmarks info) < length files).
    { rewrite Hmarks. unfold MergeSpec.expected_bookmarks.
      apply list_elem_of_lookup in Hempty as [i Hps].
      destruct (Forall2_lookup_r _ _ _ _ _ Hall Hps) as (f' & Hf & _).
      assert (Hz : zip files pss !! i = Some (f', [])).
      { apply lookup_zip_with_Some. by exists f', []. }
      apply (elem_of_lookup_imap_2 (MergeSpec.entry 0 (zip files pss))) in Hz.
      eapply Nat.lt_le_trans; [eapply length_filter_lt; [exact Hz|cbn; lia]|].
      unfold MergeSpec.claimed_bookmarks.
      rewrite length_imap, length_zip. lia. }
    rewrite Hn, Hproc. lia.
Qed.

(** C2, as amended: for three records of which one has no file in the
    directory, one has a file that cannot be read and one has a file that is
    read, a merge whose write step completes reports one processed file, one
    error and success. The missing file is not counted as an error. *)
Theorem merge_missing_and_corrupt (w : W) json_data pdf_dir output :
  path_exists pdf_dir w = true ->
  MergeSpec.status pdf_dir w <$> links json_data ≡ₚ [Missing; Corrupt; Valid] ->
  (forall wr, is_Some (snd (write_pdf output wr w))) ->
  exists info wr w1,
    Merge.merge_pdfs_with_bookmarks
      (Merge.get_pdf_files_in_order json_data pdf_dir w) output w
    = (MergeOk info, wr, w1)
    /\ processed_count info = 1
    /\ error_count info = 1
    /\ success (MergeOk info) = true.
Proof.
  intros Hdir Hperm Hwrite.
  unfold Merge.get_pdf_files_in_order, Merge.merge_pdfs_with_bookmarks.
  rewrite Hdir. cbn [negb]. rewrite collect_loop. cbn [app].
  match goal with |- context [write_pdf output ?wr w] =>
    destruct (Hwrite wr) as [size Hw];
    destruct (write_pdf output wr w) as [w1 written]; cbn [snd] in Hw; subst written end.
  eexists _, _, _. split; [reflexivity|].
  cbn [processed_count error_count success].
  match goal with |- context [fold_left (Merge.merge_step w) ?fs Merge.init] =>
    destruct (merge_loop_counts w fs Merge.init) as [-> ->] end.
  destruct (found_counts pdf_dir w (links json_data)) as [-> ->].
  rewrite Hperm. done.
Qed.

End MergerResults.

Lemma fake_write_returns p wr (w : fake) :
  files w !! p <> Some CDir -> is_Some (snd (write_pdf p wr w)).
Proof.
  intros Hp. cbn. unfold Fake.write.
  destruct (files w !! p) as [[]|]; by eauto.
Qed.

Lemma fake_attaches t n (wr : PdfWriter) :
  n < length (pages wr) -> outline_item_ok (PdfLib := Fake.pdf) t n wr = true.
Proof. intros Hn. by apply Nat.ltb_lt. Qed.

Lemma merged_bookmarks_witness :
  exists info wr w1,
    Merge.merge_pdfs_with_bookmarks (SampleMerge.found SampleMerge.with_empty)
      "./data/merged.pdf" SampleMerge.with_empty = (MergeOk info, wr, w1)
    /\ pages wr = [1; 2; 3]
    /\ page_count info = 3
    /\ bookmarks info
       = MergeSpec.expected_bookmarks (SampleMerge.found SampleMerge.with_empty)
           [[1; 2]; []; [3]]
    /\ outline wr = MergeSpec.outline_entry <$> bookmarks info.
Proof.
  destruct (merged_bookmarks SampleMerge.with_empty
              (SampleMerge.found SampleMerge.with_empty) [[1; 2]; []; [3]]
              "./data/merged.pdf")
    as (info & wr & w1 & Hrun & Hpages & _ & Hcount & Hmarks & Houtline & _).
  - vm_compute. repeat constructor.
  - apply fake_attaches.
  - intros wr. apply fake_write_returns. vm_compute. discriminate.
  - exists info, wr, w1. split_and!; [exact Hrun|exact Hpages|exact Hcount|exact Hmarks|exact Houtline].
Defined.

(** C4 as stated fails: of three documents that are read, the one without
    pages gets no bookmark and no outline entry. *)
Lemma merged_bookmarks_counterexample :
  Forall2 (fun f ps => PdfReader (path f) SampleMerge.with_empty = Readable ps)
    (SampleMerge.found SampleMerge.with_empty) [[1; 2]; []; [3]]
  /\ MergeSpec.claimed_bookmarks (SampleMerge.found SampleMerge.with_empty)
       [[1; 2]; []; [3]]
     = [ {| bm_title := "A"; bm_page := 0; bm_page_count := 2 |};
         {| bm_title := "B"; bm_page := 2; bm_page_count := 0 |};
         {| bm_title := "C"; bm_page := 2; bm_page_count := 1 |} ]
  /\ exists info wr w1,
       SampleMerge.merged SampleMerge.with_empty = (MergeOk info, wr, w1)
       /\ bookmarks info
          = [ {| bm_title := "A"; bm_page := 0; bm_page_count := 2 |};
              {| bm_title := "C"; bm_page := 2; bm_page_count := 1 |} ]
       /\ outline wr = [("A", 0); ("C", 2)].
Proof.
  split; [vm_compute; repeat constructor|]. split; [vm_compute; reflexivity|].
  eexists _, _, _. split; [vm_compute; reflexivity|]. split; reflexivity.
Qed.

Lemma empty_document_has_no_bookmark_witness :
  (Merge.processed
     (Merge.merge_step SampleMerge.with_empty Merge.init
        (MergeSpec.file_of "./data/pdfs" (SampleMerge.record "B"))) = 1
   /\ Merge.marks
        (Merge.merge_step SampleMerge.with_empty Merge.init
           (MergeSpec.file_of "./data/pdfs" (SampleMerge.record "B"))) = [])
  /\ exists info wr w1,
       Merge.merge_pdfs_with_bookmarks (SampleMerge.found SampleMerge.with_empty)
         "./data/merged.pdf" SampleMerge.with_empty = (MergeOk info, wr, w1)
       /\ bookmarks_count info < processed_count info
       /\ length (outline wr) < processed_count info.
Proof.
  destruct (empty_document_has_no_bookmark SampleMerge.with_empty Merge.init
              (MergeSpec.file_of "./data/pdfs" (SampleMerge.record "B"))
              (SampleMerge.found SampleMerge.with_empty) [[1; 2]; []; [3]]
              "./data/merged.pdf") as [Hstep Hall].
  split.
  - destruct Hstep as (Hp & Hm & _); [vm_compute; reflexivity|].
    split; [exact Hp|exact Hm].
  - destruct Hall as (info & wr & w1 & Hrun & _ & Hlt & Hout).
    + vm_compute. repeat constructor.
    + apply list_elem_of_In. cbn. tauto.
    + intros wr. apply fake_write_returns. vm_compute. discriminate.
    + exists info, wr, w1. split_and!; [exact Hrun|exact Hlt|exact Hout].
Defined.

Lemma merge_missing_and_corrupt_witness :
  exists info wr w1,
    Merge.merge_pdfs_with_bookmarks (SampleMerge.found SampleMerge.damaged)
      "./data/merged.pdf" SampleMerge.damaged = (MergeOk info, wr, w1)
    /\ processed_count info = 1
    /\ error_count info = 1
    /\ success (MergeOk info) = true.
Proof.
  apply (merge_missing_and_corrupt SampleMerge.damaged
           (SampleMerge.manifest ["A"; "B"; "C"]) "./data/pdfs" "./data/merged.pdf").
  - vm_compute. reflexivity.
  - assert (Hs : MergeSpec.status "./data/pdfs" SampleMerge.damaged
                   <$> links (SampleMerge.manifest ["A"; "B"; "C"])
                 = [Valid; Missing; Corrupt]) by (vm_compute; reflexivity).
    rewrite Hs. apply (Permutation_cons_append [Missing; Corrupt] Valid).
  - intros wr. apply fake_write_returns. vm_compute. discriminate.
Defined.

(** C2 as stated fails: with one file missing and one that cannot be read
    among three records, the merge reports one error, not two. *)
Lemma merge_missing_and_corrupt_counterexample :
  MergeSpec.status "./data/pdfs" SampleMerge.damaged
    <$> links (SampleMerge.manifest ["A"; "B"; "C"])
  = [Valid; Missing; Corrupt]
  /\ exists info wr w1,
       SampleMerge.merged SampleMerge.damaged = (MergeOk info, wr, w1)
       /\ processed_count info = 1
       /\ error_count info = 1
       /\ error_count info <> 2.
Proof.
  split; [vm_compute; reflexivity|].
  eexists _, _, _. split; [vm_compute; reflexivity|]. cbn. split_and!; [done|done|lia].
Qed.

(** ** The three stages in a row *)

(** The example of the specification: two records with the file name
    [A.pdf] become [A.pdf] and [A_2.pdf]. *)
Example dedup_two_equal_titles :
  map file_name (Extract.dedup [mkLink "/a" "A" "A.pdf"; mkLink "/a" "A" "A.pdf"])
  = ["A.pdf"; "A_2.pdf"].
Proof. vm_compute. reflexivity. Qed.

(** Extraction, rendering and merging of a table of contents with two
    chapters of the same title. *)
Example pipeline_runs :
  Render.read_json "./data/extracted_urls.json" SamplePipeline.extracted
  = Extract.payload [mkLink "/a" "A" "A.pdf"; mkLink "/b" "A" "A_2.pdf"]
      "https://example.com/book"
  /\ fst (fst SamplePipeline.rendered) = Finished 2 0 0
  /\ invocations (snd SamplePipeline.rendered) = 2
  /\ (fun r => (fst (fst r), snd (fst r))) <$> SamplePipeline.merged
     = Some (0%Z,
             Some (MergeOk
                     {| output_path := "./data/merged.pdf";
                        file_size := 2;
                        page_count := 2;
                        processed_count := 2;
                        error_count := 0;
                        bookmarks_count := 2;
                        bookmarks :=
                          [ {| bm_title := "A"; bm_page := 0; bm_page_count := 1 |};
                            {| bm_title := "A"; bm_page := 1; bm_page_count := 1 |} ] |})).
Proof. split_and!; vm_compute; reflexivity. Qed.

(** * Further properties *)

(** ** File names and titles *)

Lemma all_chars_filter p s : Text.all_chars p (Py.filter p s) = true.
Proof.
  induction s as [|c s IH]; [done|]. cbn [Py.filter].
  destruct (p c) eqn:Hc; [|done]. cbn. by rewrite Hc.
Qed.

Lemma all_chars_rstrip_by p q s :
  Text.all_chars p s = true -> Text.all_chars p (Py.rstrip_by q s) = true.
Proof.
  induction s as [|c s IH]; [done|]. cbn [Text.all_chars Py.rstrip_by].
  intros [Hc Hs]%andb_true_iff. specialize (IH Hs).
  destruct (Py.rstrip_by q s) as [|c' s'].
  - destruct (q c); [done|]. cbn. by rewrite Hc.
  - cbn [Text.all_chars] in *. by rewrite Hc.
Qed.

Lemma filter_all_chars p s : Text.all_chars p s = true -> Py.filter p s = s.
Proof.
  induction s as [|c s IH]; [done|]. cbn [Text.all_chars Py.filter].
  intros [Hc Hs]%andb_true_iff. by rewrite Hc, IH.
Qed.

Lemma rstrip_by_idem p s : Py.rstrip_by p (Py.rstrip_by p s) = Py.rstrip_by p s.
Proof.
  induction s as [|c s IH]; [done|]. cbn [Py.rstrip_by].
  destruct (Py.rstrip_by p s) as [|c' s'] eqn:Hs.
  - destruct (p c) eqn:Hc; [done|]. cbn. by rewrite Hc.
  - cbn [Py.rstrip_by]. cbn [Py.rstrip_by] in IH. by rewrite IH.
Qed.

(** X1: a file name base made by [safe_title] has only letters, digits,
    spaces, [-], [_] and [.], and no white space at its end; making it safe
    again changes nothing. *)
Theorem safe_title_safe title :
  Text.all_chars Text.safe_char (Extract.safe_title title) = true
  /\ Py.rstrip (Extract.safe_title title) = Extract.safe_title title
  /\ Extract.safe_title (Extract.safe_title title) = Extract.safe_title title.
Proof.
  unfold Extract.safe_title, Py.rstrip.
  assert (Hall : Text.all_chars Text.safe_char
                   (Py.rstrip_by Py.isspace (Py.filter Text.safe_char title)) = true)
    by apply all_chars_rstrip_by, all_chars_filter.
  split_and!; [done|apply rstrip_by_idem|].
  change (fun c => Py.isalnum c || Py.mem c " -_.") with Text.safe_char.
  by rewrite (filter_all_chars _ _ Hall), rstrip_by_idem.
Qed.

Lemma single_spaced_word_app w t :
  Py.filter Py.isspace w = "" ->
  Text.single_spaced (w +:+ t) = Text.single_spaced t.
Proof.
  induction w as [|c w IH]; [done|]. cbn [Py.filter].
  destruct (Py.isspace c) eqn:Hc; [done|]. intros Hw.
  rewrite string_app_cons. cbn [Text.single_spaced]. by rewrite Hc, IH.
Qed.

Lemma single_spaced_word w :
  Py.filter Py.isspace w = "" -> Text.single_spaced w = true.
Proof.
  induction w as [|c w IH]; [done|]. cbn [Py.filter Text.single_spaced].
  destruct (Py.isspace c); [done|]. intros Hw. by rewrite IH.
Qed.

Lemma join_cons_cons sep w w' ws :
  Py.join sep (w :: w' :: ws) = w +:+ sep +:+ Py.join sep (w' :: ws).
Proof. done. Qed.

Lemma join_words_single_spaced ws :
  Forall ExtractSpec.is_word ws -> Text.single_spaced (Py.join " " ws) = true.
Proof.
  induction 1 as [|w ws Hw Hws IH]; [done|].
  destruct ws as [|w' ws].
  - cbn [Py.join]. apply single_spaced_word, Hw.
  - rewrite join_cons_cons, single_spaced_word_app by apply Hw.
    change (" " +:+ Py.join " " (w' :: ws)) with (String " " (Py.join " " (w' :: ws))).
    cbn [Text.single_spaced]. rewrite IH. rewrite join_starts_word; [done|].
    apply word_starts. by apply Forall_cons in Hws as [? _].
Qed.

(** X2: the title stored for an anchor has the characters of the anchor's
    text that are not white space, in their order; its only white space are
    single spaces between them, none at the ends. *)
Theorem display_text_normalised (a : node) :
  let t := ExtractSpec.display_text a in
  Py.filter Text.not_space t = Py.filter Text.not_space (Dom.text_content a)
  /\ Text.single_spaced t = true
  /\ (t = "" \/ Py.starts_word t = true)
  /\ Py.strip t = t.
Proof.
  unfold ExtractSpec.display_text. cbv zeta. rewrite strip_join_split.
  split_and!.
  - apply join_split_text.
  - apply join_words_single_spaced, split_words.
  - destruct (Py.split (Dom.text_content a)) as [|w ws] eqn:Hs; [by left|right].
    eapply join_starts_word, split_head_starts_word, Hs.
  - apply strip_join_split.
Qed.

(** ** The records of the extractor *)

(** X3: every record that [extract_urls_from_html] returns has a [url] and
    a [title] that are not empty; the title has no white space at its ends
    and single spaces inside; and the file name is the safe form of the
    title followed by [.pdf]. *)
Theorem extracted_record_fields fromstring html_content (r : LinkRecord) :
  r ∈ Extract.extract_urls_from_html fromstring html_content ->
  url r <> ""
  /\ title r <> ""
  /\ Py.strip (title r) = title r
  /\ Text.single_spaced (title r) = true
  /\ file_name r = Extract.safe_title (title r) +:+ ".pdf".
Proof.
  unfold Extract.extract_urls_from_html.
  destruct (fromstring html_content) as [doc|]; [|by intros ?%elem_of_nil].
  rewrite extract_loop. cbn [app].
  intros Hr. apply list_elem_of_In, in_map_iff in Hr as (a & <- & Ha).
  apply filter_In in Ha as [_ Ha]. unfold ExtractSpec.followable in Ha.
  apply andb_true_iff in Ha as [Hhref Htext].
  cbn [url title file_name ExtractSpec.record_of]. unfold ExtractSpec.display_text.
  rewrite !strip_join_split. split_and!; [| |done|apply join_words_single_spaced, split_words|done].
  - intros Hu. by rewrite Hu in Hhref.
  - intros Ht. rewrite <- title_truthy_iff, strip_join_split, Ht in Htext. done.
Qed.

Lemma extracted_record_fields_witness :
  let r := {| url := "/a"; title := "A B"; file_name := "A B.pdf" |} in
  url r <> "" /\ title r <> "" /\ Py.strip (title r) = title r
  /\ Text.single_spaced (title r) = true
  /\ file_name r = Extract.safe_title (title r) +:+ ".pdf".
Proof.
  apply (extracted_record_fields (Sample.parser (Sample.toc [("/a", " A   B ")]))
           "<a href=/a> A   B </a>").
  vm_compute. apply list_elem_of_here.
Defined.

(** ** The numbering of file names *)

Lemma dedup_length ls : length (Extract.dedup ls) = length ls.
Proof.
  unfold Extract.dedup. rewrite (dedup_loop ls []) by done. cbn [app].
  apply length_imap.
Qed.

Lemma numbered_url k l : url (ExtractSpec.numbered k l) = url l.
Proof. by destruct k. Qed.

Lemma numbered_title k l : title (ExtractSpec.numbered k l) = title l.
Proof. by destruct k. Qed.

(** X5: the numbering keeps the records, their order, and the [url] and
    [title] of each; only file names change, and none does when the file
    names are all different. *)
Theorem dedup_keeps_records ls :
  length (Extract.dedup ls) = length ls
  /\ url <$> Extract.dedup ls = url <$> ls
  /\ title <$> Extract.dedup ls = title <$> ls
  /\ (NoDup (file_name <$> ls) -> Extract.dedup ls = ls).
Proof.
  split_and!.
  - apply dedup_length.
  - unfold Extract.dedup. rewrite (dedup_loop ls []) by done. cbn [app]. rewrite fmap_imap, <- (imap_const url).
    apply imap_ext. intros i l _. apply numbered_url.
  - unfold Extract.dedup. rewrite (dedup_loop ls []) by done. cbn [app]. rewrite fmap_imap, <- (imap_const title).
    apply imap_ext. intros i l _. apply numbered_title.
  - intros Hnd. unfold Extract.dedup. rewrite (dedup_loop ls []) by done. cbn [app].
    transitivity (imap (const id) ls); [|by rewrite imap_const, list_fmap_id].
    apply imap_ext. intros i l Hi. unfold const, id.
    replace (ExtractSpec.occurrences (file_name l) (take i ls)) with 0; [done|].
    unfold ExtractSpec.occurrences.
    destruct (filter _ (take i ls)) as [|l' rest] eqn:Hf; [done|exfalso].
    assert (Hl' : l' ∈ filter (fun l0 => file_name l0 = file_name l) (take i ls))
      by (rewrite Hf; apply list_elem_of_here).
    apply list_elem_of_filter in Hl' as [Hname Hin].
    apply list_elem_of_lookup in Hin as [j Hj].
    apply lookup_take_Some in Hj as [Hj Hlt].
    assert (i = j); [|lia].
    apply (NoDup_lookup (file_name <$> ls) i j (file_name l) Hnd).
    + by rewrite list_lookup_fmap, Hi.
    + by rewrite list_lookup_fmap, Hj, <- Hname.
Qed.

Lemma dedup_keeps_records_witness :
  Extract.dedup Sample.two_links = Sample.two_links.
Proof.
  apply (dedup_keeps_records Sample.two_links).
  apply (bool_decide_unpack (NoDup (file_name <$> Sample.two_links))).
  vm_compute. exact I.
Defined.

(** ** Writing the manifest *)

Lemma head_of_no_slash p : Py.mem "/" p = false -> OsPath.head_of p = "".
Proof.
  induction p as [|c p IH]; [done|]. cbn [Py.mem OsPath.head_of].
  rewrite Ascii.eqb_sym. destruct (Ascii.eqb c "/"); [done|].
  intros Hp. by rewrite IH.
Qed.

(** X6: an output path without a directory part, such as [manifest.json],
    makes [write_extracted_json] ask for the directory [''], and where the
    system refuses to create that, the function raises and [main] with it. *)
Theorem write_needs_directory_part `{FileSystem W} fromstring html_path
    (ls : list LinkRecord) (base_url out_path : string) (w : W) :
  Py.mem "/" out_path = false ->
  makedirs "" w = None ->
  Extract.write_extracted_json ls base_url out_path w = None
  /\ Extract.main fromstring html_path base_url out_path w = None.
Proof.
  intros Hslash Hmk.
  assert (Hdir : OsPath.dirname out_path = "")
    by (unfold OsPath.dirname; by rewrite head_of_no_slash).
  assert (Hwrite : forall ls', Extract.write_extracted_json ls' base_url out_path w = None)
    by (intros ls'; unfold Extract.write_extracted_json; by rewrite Hdir, Hmk).
  split; [apply Hwrite|]. unfold Extract.main.
  destruct (read_text html_path w); [apply Hwrite|done].
Qed.

Lemma write_needs_directory_part_witness :
  Extract.write_extracted_json Sample.two_links "https://example.com"
    "manifest.json" Sample.no_world = None
  /\ Extract.main (Sample.parser (Sample.toc [])) "toc.html" "https://example.com"
       "manifest.json" Sample.no_world = None.
Proof.
  apply (write_needs_directory_part (W := fake)); vm_compute; reflexivity.
Defined.

(** X7: when [main] of the extractor returns, the manifest it wrote reads
    back with the base URL given and, as links, the records of the anchors
    of the document after numbering; [totalCount] is their number. *)
Theorem main_writes_records `{FileSystem W} fromstring
    (html_path base_url out html : string) (doc : node) (w w' : W) :
  read_text html_path w = Some html ->
  fromstring html = Some doc ->
  Extract.main fromstring html_path base_url out w = Some w' ->
  Render.manifest_fields (Render.read_json out w')
  = Some (base_url, Extract.dedup (ExtractSpec.records doc))
  /\ Json.get "totalCount" (Render.read_json out w')
     = Some (JInt (Z.of_nat (length (ExtractSpec.records doc)))).
Proof.
  intros Hread Hdoc Hmain. unfold Extract.main in Hmain. rewrite Hread in Hmain.
  assert (Hrec : Extract.extract_urls_from_html fromstring html = ExtractSpec.records doc).
  { unfold Extract.extract_urls_from_html, ExtractSpec.records, ExtractSpec.anchors.
    rewrite Hdoc, <- nodes_xpath. apply extract_loop. }
  rewrite Hrec in Hmain. unfold Extract.write_extracted_json in Hmain.
  destruct (makedirs (OsPath.dirname out) w) as [w1|]; [|done].
  apply json_load_dump in Hmain. unfold Render.read_json. rewrite Hmain.
  split; [apply manifest_fields_payload|].
  cbn. by rewrite dedup_length.
Qed.

Lemma main_writes_records_witness :
  Render.manifest_fields
    (Render.read_json "./data/extracted_urls.json" SamplePipeline.extracted)
  = Some ("https://example.com/book",
          [mkLink "/a" "A" "A.pdf"; mkLink "/b" "A" "A_2.pdf"]).
Proof.
  refine (proj1 (main_writes_records (W := fake) (Sample.parser SamplePipeline.toc)
                   "toc.html" "https://example.com/book" "./data/extracted_urls.json"
                   "<a href=/a>A</a><a href=/b>A</a>" SamplePipeline.toc
                   SamplePipeline.start SamplePipeline.extracted _ _ _));
    vm_compute; reflexivity.
Defined.

(** ** Calls of the rendering command *)

Section RendererBounds.

Context {W : Type} `{FileSystem W} `{Subprocess W}.

Variable script_dir : string.

Lemma backoff_log_last cmd k n :
  last (RenderSpec.backoff_log cmd k (S n)) = Some (Run cmd).
Proof.
  revert k. induction n as [|n IH]; intros k; [done|].
  rewrite backoff_log_step, !last_cons. by rewrite IH.
Qed.

Lemma sum_powers_of_two k n :
  foldr Z.add 0%Z (map (fun i => (2 ^ Z.of_nat i)%Z) (seq k n))
  = (2 ^ Z.of_nat (k + n) - 2 ^ Z.of_nat k)%Z.
Proof.
  revert k. induction n as [|n IH]; intros k; cbn [seq map foldr].
  - rewrite Nat.add_0_r. lia.
  - rewrite IH. replace (k + S n) with (S k + n) by lia.
    replace (Z.of_nat (S k)) with (Z.of_nat k + 1)%Z by lia.
    rewrite Z.pow_add_r by lia. lia.
Qed.

Lemma invocations_app log1 log2 :
  invocations (log1 ++ log2) = invocations log1 + invocations log2.
Proof. unfold invocations. by rewrite List.filter_app, length_app. Qed.

Lemma waits_app log1 log2 :
  Trace.waits (log1 ++ log2) = Trace.waits log1 ++ Trace.waits log2.
Proof.
  induction log1 as [|[cmd|s] log1 IH]; cbn [app Trace.waits]; [done|done|].
  by rewrite IH.
Qed.

(** The number of invocations of a call with a retry limit that is not
    negative, however the call ends. *)
Lemma run_node_save_invocations url file_name output_dir (m : nat)
    proxy proxy_username proxy_password selector (w w' : W) r log :
  Render.run_node_save script_dir url file_name output_dir (Z.of_nat m)
    proxy proxy_username proxy_password selector w = (r, w', log) ->
  1 <= invocations log <= S m.
Proof.
  intros Hrun.
  destruct (run_node_save_shape script_dir url file_name output_dir m
              proxy proxy_username proxy_password selector w)
    as (j & r' & w1 & log' & Hj & _ & Hcall & Hend).
  rewrite Hcall in Hrun. injection Hrun as -> -> ->.
  unfold RenderSpec.ending in Hend.
  destruct (RenderSpec.attempt_at _ _ 0 j w) as [[]|]; [| | |done].
  - destruct Hend as (_ & -> & _). rewrite backoff_log_invocations. lia.
  - destruct Hend as [(_ & _ & ->)|(_ & _ & _ & ->)];
      rewrite ?invocations_app, backoff_log_invocations; cbn; lia.
  - destruct Hend as (_ & ->). rewrite backoff_log_invocations. lia.
Qed.

(** X8: with a retry limit [m] that is not negative, a call of
    [run_node_save] makes at least one and at most [m + 1] invocations of
    the command and ends with a return code or with an exception of
    [subprocess.run] or [time.sleep], never with [UnboundLocalError]. After
    invocation [i] it waits [2 ^ i] seconds before the next. When it
    returns a code it did not wait after the last invocation, it slept
    [2 ^ (n - 1) - 1] seconds in all for [n] invocations, and a code other
    than 0 comes only after all [m + 1] invocations. An exception of
    [time.sleep] comes after at most [m] invocations. *)
Theorem run_node_save_bounded url file_name output_dir (m : nat)
    proxy proxy_username proxy_password selector (w : W) :
  exists r w' log,
    Render.run_node_save script_dir url file_name output_dir (Z.of_nat m)
      proxy proxy_username proxy_password selector w = (r, w', log)
    /\ r <> UnboundLocalError
    /\ 1 <= invocations log <= S m
    /\ Trace.waits log
       = map (fun i => (2 ^ Z.of_nat i)%Z)
           (seq 0 (match r with
                   | SleepError => invocations log
                   | _ => invocations log - 1
                   end))
    /\ (r <> SleepError ->
        last log
        = Some (Run (Render.command script_dir url file_name output_dir
                       proxy proxy_username proxy_password selector)))
    /\ (r = SleepError -> invocations log <= m)
    /\ (forall code, r = Return code ->
          Wait.total log = (2 ^ Z.of_nat (invocations log - 1) - 1)%Z
          /\ (code <> 0%Z -> invocations log = S m)).
Proof.
  destruct (run_node_save_shape script_dir url file_name output_dir m
              proxy proxy_username proxy_password selector w)
    as (j & r & w' & log & Hj & _ & Hcall & Hend).
  exists r, w', log. split; [exact Hcall|].
  unfold RenderSpec.ending in Hend.
  assert (Htotal : forall n : nat,
    foldr Z.add 0%Z (map (fun i => (2 ^ Z.of_nat i)%Z) (seq 0 n))
    = (2 ^ Z.of_nat n - 1)%Z).
  { intros n. rewrite sum_powers_of_two. cbn. lia. }
  destruct (RenderSpec.attempt_at _ _ 0 j w) as [[]|]; [| | |done].
  - destruct Hend as (-> & -> & _). unfold Wait.total.
    rewrite backoff_log_invocations, backoff_log_waits, backoff_log_last.
    replace (S j - 1) with j by lia.
    split_and!; [done|lia|lia|done|done|done|].
    intros code [= <-]. by rewrite Htotal.
  - destruct Hend as [(Hlast & (code & Hcode & ->) & ->)|(Hlt & _ & -> & ->)].
    + unfold Wait.total.
      rewrite backoff_log_invocations, backoff_log_waits, backoff_log_last.
      replace (S j - 1) with j by lia.
      split_and!; [done|lia|lia|done|done|done|].
      intros code' [= <-]. rewrite Htotal. split; [done|]. intros _. lia.
    + rewrite invocations_app, waits_app, backoff_log_invocations, backoff_log_waits.
      cbn [invocations List.filter is_run length Trace.waits Nat.add].
      replace (j + 0) with j by lia.
      split_and!; [done|lia|lia| |done|intros _; lia|done].
      by rewrite seq_S, map_app.
  - destruct Hend as (-> & ->). unfold Wait.total.
    rewrite backoff_log_invocations, backoff_log_waits, backoff_log_last.
    replace (S j - 1) with j by lia.
    split_and!; [done|lia|lia|done|done|done|done].
Qed.

(** X9: whatever the retry limit, [run_node_save] returns 0 only when the
    expected file exists in the world it leaves. *)
Theorem saved_file_exists url file_name output_dir max_retries
    proxy proxy_username proxy_password selector (w w' : W) log :
  Render.run_node_save script_dir url file_name output_dir max_retries
    proxy proxy_username proxy_password selector w = (Return 0, w', log) ->
  path_exists (OsPath.join output_dir [file_name]) w' = true.
Proof.
  intros Hrun. destruct (Z.lt_ge_cases max_retries 0) as [Hneg|Hpos].
  - rewrite run_node_save_negative_limit in Hrun by done. done.
  - destruct (run_node_save_shape script_dir url file_name output_dir
                (Z.to_nat max_retries) proxy proxy_username proxy_password selector w)
      as (j & r & w1 & log1 & _ & _ & Hshape & Hend).
    rewrite Z2Nat.id in Hshape by done. rewrite Hshape in Hrun.
    injection Hrun as -> -> ->. unfold RenderSpec.ending in Hend.
    destruct (RenderSpec.attempt_at _ _ 0 j w) as [[]|]; [| | |done].
    + by destruct Hend as (_ & _ & ?).
    + destruct Hend as [(_ & (code & Hcode & [= <-]) & _)|(_ & _ & [=] & _)]. done.
    + by destruct Hend as [[=] _].
Qed.

(** X10: with a negative retry limit the first record whose file is missing
    ends the run: [run_node_save] raises before any invocation, the records
    after it are not visited and nothing is changed. *)
Theorem negative_limit_aborts args base_url link rest success fail skipped (w : W) :
  (max_retries args < 0)%Z ->
  path_exists (OsPath.join (output_dir args) [file_name link]) w = false ->
  Render.main_loop script_dir args base_url (link :: rest) success fail skipped w
  = (Raised, w, []).
Proof.
  intros Hneg Hmiss. cbn [Render.main_loop].
  by rewrite Hmiss, run_node_save_negative_limit.
Qed.

(** X11: with a retry limit [m] that is not negative, a loop of [main] that
    ends normally - no exception got out of [subprocess.run] or
    [time.sleep] - has visited every record: each one is counted once, as
    saved, failed or skipped, no counter went down, and the command was
    invoked at least once and at most [m + 1] times for each record saved
    or failed, counted over the run. *)
Theorem main_loop_counts args base_url ls success fail skipped (m : nat)
    (w w' : W) success' fail' skipped' log :
  max_retries args = Z.of_nat m ->
  Render.main_loop script_dir args base_url ls success fail skipped w
  = (Finished success' fail' skipped', w', log) ->
  exists saved failed skips,
    success' = success + saved
    /\ fail' = fail + failed
    /\ skipped' = skipped + skips
    /\ saved + failed + skips = length ls
    /\ saved + failed <= invocations log <= S m * (saved + failed).
Proof.
  intros Hm. revert success fail skipped w log.
  induction ls as [|l ls IH]; intros success fail skipped w log.
  - cbn [Render.main_loop]. intros [= <- <- <- <- <-]. exists 0, 0, 0.
    split_and!; [lia|lia|lia|done|cbn; lia|cbn; lia].
  - cbn [Render.main_loop length].
    destruct (path_exists (OsPath.join (output_dir args) [file_name l]) w).
    + intros Hloop. destruct (IH _ _ _ _ _ Hloop) as (s & f & k & -> & -> & -> & Hsum & Hinv).
      exists s, f, (S k). split_and!; [done|done|lia|lia|lia|lia].
    + rewrite Hm.
      destruct (Render.run_node_save script_dir (Render.full_url base_url l)
                  (file_name l) (output_dir args) (Z.of_nat m) (proxy args)
                  (proxy_username args) (proxy_password args) (selector args) w)
        as [[r w1] log1] eqn:Hrun.
      apply run_node_save_invocations in Hrun.
      destruct r as [code| | |]; [|done..].
      destruct (code =? 0)%Z.
      * destruct (Render.main_loop script_dir args base_url ls (S success) fail skipped w1)
          as [[o w2] log2] eqn:Hloop.
        intros [= -> <- <-].
        destruct (IH _ _ _ _ _ Hloop) as (s & f & k & -> & -> & -> & Hsum & Hinv).
        exists (S s), f, k. rewrite invocations_app.
        split_and!; [lia|done|done|lia|lia|nia].
      * destruct (Render.main_loop script_dir args base_url ls success (S fail) skipped w1)
          as [[o w2] log2] eqn:Hloop.
        intros [= -> <- <-].
        destruct (IH _ _ _ _ _ Hloop) as (s & f & k & -> & -> & -> & Hsum & Hinv).
        exists s, (S f), k. rewrite invocations_app.
        split_and!; [done|lia|done|lia|lia|nia].
Qed.

(** X12: when the manifest cannot be loaded, or is an empty object, [main]
    exits with code 1 at once: no directory is made and nothing is
    invoked. *)
Theorem main_without_manifest args (w : W) :
  (forall data, json_load (json_path args) w = Some data -> Json.truthy data = false) ->
  Render.main script_dir args w = (SysExit 1, w, []).
Proof.
  intros Hdata. unfold Render.main, Render.read_json.
  destruct (json_load (json_path args) w) as [data|]; [|done].
  by rewrite (Hdata data).
Qed.

End RendererBounds.

Lemma saved_file_exists_witness :
  path_exists (OsPath.join "./data/pdfs" ["Chapter 1.pdf"])
    (snd (fst (Render.run_node_save "/src" "https://example.com//chapter1"
                 "Chapter 1.pdf" "./data/pdfs" 3 None None None None
                 SampleRun.third_time)))
  = true.
Proof.
  apply (saved_file_exists "/src" "https://example.com//chapter1" "Chapter 1.pdf"
           "./data/pdfs" 3 None None None None SampleRun.third_time _
           (snd (Render.run_node_save "/src" "https://example.com//chapter1"
                   "Chapter 1.pdf" "./data/pdfs" 3 None None None None
                   SampleRun.third_time))).
  vm_compute. reflexivity.
Defined.

Lemma negative_limit_aborts_witness :
  Render.main_loop "/src" SampleLimit.negative "https://example.com"
    [SampleRun.chapter1; SampleRun.chapter2] 0 0 0 SampleRun.rendering
  = (Raised, SampleRun.rendering, []).
Proof.
  apply (negative_limit_aborts (W := fake)).
  - vm_compute. reflexivity.
  - vm_compute. reflexivity.
Defined.

Lemma main_loop_counts_witness :
  exists saved failed skips,
    1 = 0 + saved /\ 1 = 0 + failed /\ 0 = 0 + skips
    /\ saved + failed + skips = 2
    /\ saved + failed
       <= invocations (snd (Render.main_loop "/src" SampleRun.args "https://example.com"
                              [SampleRun.chapter1; SampleRun.chapter2] 0 0 0
                              SampleRun.third_time))
       <= 4 * (saved + failed).
Proof.
  apply (main_loop_counts (W := fake) "/src" SampleRun.args "https://example.com"
           [SampleRun.chapter1; SampleRun.chapter2] 0 0 0 3 SampleRun.third_time
           (snd (fst (Render.main_loop "/src" SampleRun.args "https://example.com"
                        [SampleRun.chapter1; SampleRun.chapter2] 0 0 0
                        SampleRun.third_time)))).
  - reflexivity.
  - vm_compute. reflexivity.
Defined.

Lemma main_without_manifest_witness :
  Render.main "/src" SampleRun.args Sample.no_world = (SysExit 1, Sample.no_world, []).
Proof.
  apply (main_without_manifest (W := fake)).
  intros data Hload. vm_compute in Hload. discriminate.
Defined.

(** X4: the record at position [i] after the numbering of [main]: with no
    earlier record of its file name it is unchanged; with [k] earlier
    records of the same file name [name] it gets the file name
    [name.rstrip('.pdf')], [_], [k + 1] and [.pdf]. The count is over the
    file names as extracted, not as renamed. *)
Theorem dedup_renames ls i l :
  ls !! i = Some l ->
  let k := ExtractSpec.occurrences (file_name l) (take i ls) in
  Extract.dedup ls !! i = Some (ExtractSpec.numbered k l)
  /\ (k = 0 -> ExtractSpec.numbered k l = l)
  /\ (0 < k ->
      file_name (ExtractSpec.numbered k l)
      = Py.rstrip_chars ".pdf" (file_name l) +:+ "_" +:+ Py.str_of_nat (S k) +:+ ".pdf").
Proof.
  intros Hi k. split_and!.
  - unfold Extract.dedup. rewrite (dedup_loop ls []) by done. cbn [app].
    by rewrite list_lookup_imap, Hi.
  - by intros ->.
  - intros Hk. destruct k; [lia|done].
Qed.

Lemma dedup_renames_witness :
  Extract.dedup [mkLink "/1" "app" "app.pdf"; mkLink "/2" "app" "app.pdf"] !! 1
  = Some (mkLink "/2" "app" "a_2.pdf").
Proof.
  exact (proj1 (dedup_renames [mkLink "/1" "app" "app.pdf"; mkLink "/2" "app" "app.pdf"]
                  1 (mkLink "/2" "app" "app.pdf") eq_refl)).
Defined.

(** ** Files found and merged *)

Section MergerMore.

Context {W : Type} `{FileSystem W} `{PdfLib W}.

(** X13: [get_pdf_files_in_order] returns nothing when the directory does
    not exist, and otherwise one entry for each record whose file
    [os.path.join(pdf_dir, file_name)] exists, in the order of the manifest,
    with that path and the record's title and url; a record without file
    is left out. *)
Theorem found_files_in_order json_data pdf_dir (w : W) :
  let found := Merge.get_pdf_files_in_order json_data pdf_dir w in
  found
  = (if path_exists pdf_dir w
     then MergeSpec.file_of pdf_dir
            <$> filter (fun l => path_exists (OsPath.join pdf_dir [file_name l]) w)
                  (links json_data)
     else [])
  /\ Forall (fun f => path_exists (path f) w = true) found
  /\ pf_title <$> found `sublist_of` title <$> links json_data
  /\ length found <= length (links json_data).
Proof.
  cbv zeta. unfold Merge.get_pdf_files_in_order.
  destruct (path_exists pdf_dir w); cbn [negb].
  - rewrite collect_loop. cbn [app]. split_and!; [done|..].
    + apply Forall_fmap, Forall_forall. intros l [Hl _]%list_elem_of_filter.
      cbn. by destruct (path_exists _ w).
    + rewrite <- list_fmap_compose.
      change (pf_title ∘ MergeSpec.file_of pdf_dir) with title.
      apply fmap_sublist, sublist_filter.
    + rewrite length_fmap. apply length_filter.
  - split_and!; [done|by constructor|apply sublist_nil_l|cbn; lia].
Qed.

(** The counters and bookmarks that the merge loop keeps. *)
Lemma merge_loop_marks (w : W) files a :
  let a' := fold_left (Merge.merge_step w) files a in
  Merge.processed a' + Merge.errors a'
  = Merge.processed a + Merge.errors a + length files
  /\ length (Merge.marks a') + Merge.processed a
     <= length (Merge.marks a) + Merge.processed a'
  /\ Merge.processed a <= Merge.processed a'.
Proof.
  revert a. induction files as [|f files IH]; intros a; cbn [fold_left length].
  - cbn. lia.
  - cbv zeta in *. destruct (IH (Merge.merge_step w a f)) as (-> & Hm & Hp).
    unfold Merge.merge_step in *.
    destruct (PdfReader (path f) w) as [ps|added];
      cbn [Merge.processed Merge.errors Merge.marks] in *.
    + destruct (0 <? length ps); rewrite ?length_app in *; cbn [length] in *; lia.
    + lia.
Qed.

(** X14: whatever the files are, a merge whose write step completes reports
    success, and its counts add up: every file is counted once, as processed
    or as an error; there are at most as many bookmarks as processed files,
    [bookmarks_count] is their number, and the outline of the output has at
    most that many entries. *)
Theorem merge_counts_add_up (w : W) pdf_files output :
  (forall wr, is_Some (snd (write_pdf output wr w))) ->
  exists info wr w1,
    Merge.merge_pdfs_with_bookmarks pdf_files output w = (MergeOk info, wr, w1)
    /\ processed_count info + error_count info = length pdf_files
    /\ bookmarks_count info = length (bookmarks info)
    /\ bookmarks_count info <= processed_count info
    /\ length (outline wr) <= bookmarks_count info.
Proof.
  intros Hwrite. unfold Merge.merge_pdfs_with_bookmarks.
  match goal with |- context [write_pdf output ?wr w] =>
    destruct (Hwrite wr) as [size Hw];
    destruct (write_pdf output wr w) as [w1 written]; cbn [snd] in Hw; subst written end.
  eexists _, _, _. split; [reflexivity|].
  cbn [processed_count error_count bookmarks_count bookmarks].
  destruct (merge_loop_marks w pdf_files Merge.init) as (Hsum & Hmarks & _).
  cbn [Merge.init Merge.processed Merge.errors Merge.marks length] in Hsum, Hmarks.
  split_and!; [lia|done|lia|].
  etrans; [apply outline_loop_length|]. cbn. lia.
Qed.

Lemma tiles_snoc offset bs b stop :
  MergeFacts.tiles offset bs stop ->
  bm_page b = stop -> 0 < bm_page_count b ->
  MergeFacts.tiles offset (bs ++ [b]) (stop + bm_page_count b).
Proof.
  revert offset. induction bs as [|b' bs IH]; intros offset; cbn.
  - intros <- Hb Hpos. by rewrite Hb.
  - intros (Hb' & Hpos' & Htail) Hb Hpos. split_and!; [done|done|by apply IH].
Qed.

(** X15: whatever the files are, the bookmarks of a merge tile the counted
    pages: the first begins at page 0, each next one begins where the one
    before ends, each has at least one page, and [page_count] is where the
    last one ends. *)
Theorem bookmarks_tile_pages (w : W) pdf_files output :
  (forall wr, is_Some (snd (write_pdf output wr w))) ->
  exists info wr w1,
    Merge.merge_pdfs_with_bookmarks pdf_files output w = (MergeOk info, wr, w1)
    /\ MergeFacts.tiles 0 (bookmarks info) (page_count info)
    /\ page_count info = sum_list (bm_page_count <$> bookmarks info).
Proof.
  intros Hwrite. unfold Merge.merge_pdfs_with_bookmarks.
  match goal with |- context [write_pdf output ?wr w] =>
    destruct (Hwrite wr) as [size Hw];
    destruct (write_pdf output wr w) as [w1 written]; cbn [snd] in Hw; subst written end.
  eexists _, _, _. split; [reflexivity|]. cbn [page_count bookmarks].
  assert (Hinv : forall fs a,
    MergeFacts.tiles 0 (Merge.marks a) (Merge.current_page a) ->
    Merge.current_page a = sum_list (bm_page_count <$> Merge.marks a) ->
    let a' := fold_left (Merge.merge_step w) fs a in
    MergeFacts.tiles 0 (Merge.marks a') (Merge.current_page a')
    /\ Merge.current_page a' = sum_list (bm_page_count <$> Merge.marks a')).
  { induction fs as [|f fs IH]; intros a Ht Hs; [done|].
    cbn [fold_left].
    assert (Hstep :
      MergeFacts.tiles 0 (Merge.marks (Merge.merge_step w a f))
        (Merge.current_page (Merge.merge_step w a f))
      /\ Merge.current_page (Merge.merge_step w a f)
         = sum_list (bm_page_count <$> Merge.marks (Merge.merge_step w a f))).
    { unfold Merge.merge_step.
      destruct (PdfReader (path f) w) as [ps|added];
        cbn [Merge.marks Merge.current_page]; [|done].
      destruct (0 <? length ps) eqn:E; [|done]. apply Nat.ltb_lt in E. split.
      - by apply (tiles_snoc 0 (Merge.marks a)
                    (Build_Bookmark (pf_title f) (Merge.current_page a) (length ps))
                    (Merge.current_page a)).
      - rewrite fmap_app, sum_list_with_app. cbn. lia. }
    destruct Hstep. by apply IH. }
  by apply (Hinv pdf_files Merge.init).
Qed.

Lemma sum_list_stray_cons (w : W) f files :
  sum_list (MergeFacts.stray w <$> (f :: files))
  = MergeFacts.stray w f + sum_list (MergeFacts.stray w <$> files).
Proof. done. Qed.

(** X16: the pages of the output are the counted pages and the pages that
    files left behind before reading them failed: such pages stay in the
    output without being counted in [page_count] or bookmarked. When every
    failure comes before the first page of its file, [page_count] is the
    number of pages of the output. *)
Theorem merge_page_accounting (w : W) pdf_files output :
  (forall wr, is_Some (snd (write_pdf output wr w))) ->
  exists info wr w1,
    Merge.merge_pdfs_with_bookmarks pdf_files output w = (MergeOk info, wr, w1)
    /\ length (pages wr)
       = page_count info + sum_list (MergeFacts.stray w <$> pdf_files)
    /\ (Forall (fun f => MergeFacts.stray w f = 0) pdf_files ->
        page_count info = length (pages wr)).
Proof.
  intros Hwrite. unfold Merge.merge_pdfs_with_bookmarks.
  match goal with |- context [write_pdf output ?wr w] =>
    destruct (Hwrite wr) as [size Hw];
    destruct (write_pdf output wr w) as [w1 written]; cbn [snd] in Hw; subst written end.
  eexists _, _, _. split; [reflexivity|]. cbn [page_count].
  rewrite outline_loop_pages. cbn [pages].
  assert (Hinv : forall fs a,
    let a' := fold_left (Merge.merge_step w) fs a in
    length (Merge.writer a') + Merge.current_page a
    = length (Merge.writer a) + Merge.current_page a'
      + sum_list (MergeFacts.stray w <$> fs)).
  { induction fs as [|f fs IH]; intros a; [cbn; lia|].
    cbn [fold_left]. cbv zeta in *. rewrite sum_list_stray_cons.
    specialize (IH (Merge.merge_step w a f)).
    unfold Merge.merge_step, MergeFacts.stray in *.
    destruct (PdfReader (path f) w) as [ps|added];
      cbn [Merge.writer Merge.current_page] in *; rewrite length_app in IH.
    - destruct (0 <? length ps) eqn:E; [lia|]. apply Nat.ltb_ge in E. lia.
    - lia. }
  specialize (Hinv pdf_files Merge.init). cbv zeta in Hinv.
  cbn [Merge.init Merge.writer Merge.current_page length] in Hinv.
  split; [lia|]. intros Hclean.
  assert (sum_list (MergeFacts.stray w <$> pdf_files) = 0); [|lia].
  clear Hinv. induction Hclean as [|f fs Hf _ IH]; [done|].
  rewrite sum_list_stray_cons. lia.
Qed.

End MergerMore.

Lemma filter_none {A} (P : A -> Prop) `{!forall x, Decision (P x)} (l : list A) :
  Forall (fun x => ~ P x) l -> filter P l = [].
Proof.
  induction 1 as [|x l Hx _ IH]; [done|]. by rewrite filter_cons_False.
Qed.

Section MergerEdges.

Context {W : Type} `{FileSystem W} `{PdfLib W}.

(** The merge loop over files of which none is read. *)
Lemma merge_loop_unreadable (w : W) fs a :
  Forall (fun f => MergeSpec.is_readable (PdfReader (path f) w) = false) fs ->
  let a' := fold_left (Merge.merge_step w) fs a in
  Merge.processed a' = Merge.processed a
  /\ Merge.errors a' = Merge.errors a + length fs
  /\ Merge.marks a' = Merge.marks a
  /\ Merge.current_page a' = Merge.current_page a.
Proof.
  intros Hall. revert a. induction Hall as [|f fs Hf _ IH]; intros a.
  - cbn. split_and!; [done|lia|done|done].
  - cbn [fold_left length]. cbv zeta in *.
    destruct (IH (Merge.merge_step w a f)) as (-> & -> & -> & ->).
    unfold Merge.merge_step. destruct (PdfReader (path f) w); [done|].
    cbn. split_and!; [done|lia|done|done].
Qed.

(** The result of a merge of files of which none is read. *)
Lemma merge_of_unreadable_loop_result (w : W) pdf_files output :
  Forall (fun f => MergeSpec.is_readable (PdfReader (path f) w) = false) pdf_files ->
  (forall wr, is_Some (snd (write_pdf output wr w))) ->
  exists info wr w1,
    Merge.merge_pdfs_with_bookmarks pdf_files output w = (MergeOk info, wr, w1)
    /\ processed_count info = 0
    /\ error_count info = length pdf_files
    /\ page_count info = 0.
Proof.
  intros Hall Hwrite. unfold Merge.merge_pdfs_with_bookmarks.
  destruct (merge_loop_unreadable w pdf_files Merge.init Hall) as (Hp & He & Hm & Hc).
  cbv zeta in *.
  match goal with |- context [write_pdf output ?wr w] =>
    destruct (Hwrite wr) as [size Hw];
    destruct (write_pdf output wr w) as [w1 written]; cbn [snd] in Hw; subst written end.
  eexists _, _, _. split; [reflexivity|].
  cbn [processed_count error_count page_count]. by rewrite Hp, He, Hc.
Qed.

(** X17: when none of the files can be read, a merge whose write step
    completes still reports success, with no processed file, one error for
    each file, no page counted, no bookmark and an empty outline. *)
Theorem merge_of_unreadable_files (w : W) pdf_files output :
  Forall (fun f => MergeSpec.is_readable (PdfReader (path f) w) = false) pdf_files ->
  (forall wr, is_Some (snd (write_pdf output wr w))) ->
  exists info wr w1,
    Merge.merge_pdfs_with_bookmarks pdf_files output w = (MergeOk info, wr, w1)
    /\ success (MergeOk info) = true
    /\ processed_count info = 0
    /\ error_count info = length pdf_files
    /\ page_count info = 0
    /\ bookmarks info = []
    /\ outline wr = [].
Proof.
  intros Hall Hwrite. unfold Merge.merge_pdfs_with_bookmarks.
  destruct (merge_loop_unreadable w pdf_files Merge.init Hall) as (Hp & He & Hm & Hc).
  cbv zeta in *. rewrite Hm. cbn [Merge.init Merge.marks fold_left].
  match goal with |- context [write_pdf output ?wr w] =>
    destruct (Hwrite wr) as [size Hw];
    destruct (write_pdf output wr w) as [w1 written]; cbn [snd] in Hw; subst written end.
  eexists _, _, _. split; [reflexivity|].
  cbn [success processed_count error_count page_count bookmarks outline].
  rewrite Hp, He, Hc. done.
Qed.

Lemma read_docs_cons_readable (w : W) f fs ps :
  PdfReader (path f) w = Readable ps ->
  MergeFacts.read_docs w (f :: fs) = (f, ps) :: MergeFacts.read_docs w fs.
Proof. intros Hr. unfold MergeFacts.read_docs. cbn. by rewrite Hr. Qed.

Lemma read_docs_cons_unreadable (w : W) f fs added :
  PdfReader (path f) w = Unreadable added ->
  MergeFacts.read_docs w (f :: fs) = MergeFacts.read_docs w fs.
Proof. intros Hr. unfold MergeFacts.read_docs. cbn. by rewrite Hr. Qed.

(** The merge loop over files that are read or fail before their first
    page: it is the loop over the files that are read. *)
Lemma merge_loop_clean (w : W) fs a :
  Forall (fun f => MergeFacts.stray w f = 0) fs ->
  let docs := MergeFacts.read_docs w fs in
  let a' := fold_left (Merge.merge_step w) fs a in
  Merge.writer a' = Merge.writer a ++ concat (snd <$> docs)
  /\ Merge.processed a' = Merge.processed a + length docs
  /\ Merge.marks a'
     = Merge.marks a
       ++ filter (fun b => 0 < bm_page_count b)
            (imap (MergeSpec.entry (Merge.current_page a) docs) docs)
  /\ Merge.current_page a'
     = Merge.current_page a + sum_list (length <$> (snd <$> docs)).
Proof.
  intros Hall. revert a. induction Hall as [|f fs Hf _ IH]; intros a.
  - cbn. rewrite !app_nil_r. split_and!; [done|lia|done|lia].
  - cbn [fold_left]. cbv zeta in *.
    destruct (IH (Merge.merge_step w a f)) as (-> & -> & -> & ->).
    unfold MergeFacts.stray in Hf.
    destruct (PdfReader (path f) w) as [ps|added] eqn:Hr.
    + rewrite (read_docs_cons_readable w f fs ps Hr).
      rewrite (merge_step_readable w a f ps Hr).
      cbn [Merge.writer Merge.processed Merge.marks Merge.current_page].
      rewrite imap_entry_cons. cbn [fst snd fmap list_fmap concat length].
      split_and!; [by rewrite app_assoc|lia| |cbn; lia].
      rewrite <- app_assoc. f_equal.
      destruct (decide (0 < length ps)) as [Hps|Hps].
      * by rewrite !filter_cons_True.
      * by rewrite !filter_cons_False.
    + rewrite (read_docs_cons_unreadable w f fs added Hr).
      rewrite (merge_step_unreadable w a f added Hr).
      cbn [Merge.writer Merge.processed Merge.marks Merge.current_page].
      apply nil_length_inv in Hf as ->. by rewrite app_nil_r.
Qed.

(** X18: when every file that cannot be read fails before its first page
    goes into the writer, such files are left out of the merge: the output
    has the pages of the files that are read, in order, the bookmarks are
    those of these files alone, each at the number of pages before its
    document, and [page_count] is the number of pages of the output. *)
Theorem clean_failures_are_left_out (w : W) pdf_files output :
  Forall (fun f => MergeFacts.stray w f = 0) pdf_files ->
  (forall wr, is_Some (snd (write_pdf output wr w))) ->
  let docs := MergeFacts.read_docs w pdf_files in
  exists info wr w1,
    Merge.merge_pdfs_with_bookmarks pdf_files output w = (MergeOk info, wr, w1)
    /\ pages wr = concat (snd <$> docs)
    /\ processed_count info = length docs
    /\ bookmarks info
       = filter (fun b => 0 < bm_page_count b) (imap (MergeSpec.entry 0 docs) docs)
    /\ page_count info = length (pages wr).
Proof.
  intros Hall Hwrite docs. unfold Merge.merge_pdfs_with_bookmarks.
  destruct (merge_loop_clean w pdf_files Merge.init Hall) as (Hwr & Hp & Hm & Hc).
  cbv zeta in *. fold docs in Hwr, Hp, Hm, Hc.
  cbn [Merge.init Merge.writer Merge.processed Merge.marks Merge.current_page app Nat.add]
    in Hwr, Hp, Hm, Hc.
  match goal with |- context [write_pdf output ?wr w] =>
    destruct (Hwrite wr) as [size Hw];
    destruct (write_pdf output wr w) as [w1 written]; cbn [snd] in Hw; subst written end.
  eexists _, _, _. split; [reflexivity|].
  cbn [processed_count page_count bookmarks]. rewrite outline_loop_pages. cbn [pages].
  rewrite Hwr, Hp, Hm, Hc. split_and!; try done.
  by rewrite length_concat_pages.
Qed.

(** X19: when none of the files of the manifest exists, or the directory
    itself does not, [main] of the merger returns 1 without merging:
    nothing is written. *)
Theorem main_without_pdfs json_path pdf_dir output ls base_url (w : W) :
  json_load json_path w = Some (Extract.payload ls base_url) ->
  (path_exists pdf_dir w = false
   \/ forall l, l ∈ ls -> path_exists (OsPath.join pdf_dir [file_name l]) w = false) ->
  Merge.main json_path pdf_dir output w = Some (1%Z, None, w).
Proof.
  intros Hload Hnone. unfold Merge.main, Merge.read_json_file.
  rewrite Hload, payload_truthy, to_manifest_payload. cbn [negb].
  assert (Hfound : Merge.get_pdf_files_in_order
                     {| totalCount := Z.of_nat (length ls); baseUrl := base_url; links := ls |}
                     pdf_dir w = []).
  { unfold Merge.get_pdf_files_in_order. cbn [links].
    destruct (path_exists pdf_dir w) eqn:Hdir; [|done]. cbn [negb].
    destruct Hnone as [?|Hnone]; [done|]. rewrite collect_loop. cbn [app].
    rewrite filter_none; [done|]. apply Forall_forall. intros l Hl.
    rewrite (Hnone l Hl). cbn. tauto. }
  by rewrite Hfound.
Qed.

(** X20: when the files of the manifest exist but none of them can be
    read, [main] of the merger still returns 0, provided the write step
    completes: the output has no counted page and every file is an
    error. *)
Theorem main_succeeds_without_pages json_path pdf_dir output ls base_url (w : W) :
  json_load json_path w = Some (Extract.payload ls base_url) ->
  path_exists pdf_dir w = true ->
  ls <> [] ->
  (forall l, l ∈ ls ->
     path_exists (OsPath.join pdf_dir [file_name l]) w = true
     /\ MergeSpec.is_readable (PdfReader (OsPath.join pdf_dir [file_name l]) w) = false) ->
  (forall wr, is_Some (snd (write_pdf output wr w))) ->
  exists info w1,
    Merge.main json_path pdf_dir output w = Some (0%Z, Some (MergeOk info), w1)
    /\ processed_count info = 0
    /\ page_count info = 0
    /\ error_count info = length ls.
Proof.
  intros Hload Hdir Hne Hall Hwrite. unfold Merge.main, Merge.read_json_file.
  rewrite Hload, payload_truthy, to_manifest_payload. cbn [negb].
  assert (Hfound : Merge.get_pdf_files_in_order
                     {| totalCount := Z.of_nat (length ls); baseUrl := base_url; links := ls |}
                     pdf_dir w = MergeSpec.file_of pdf_dir <$> ls).
  { unfold Merge.get_pdf_files_in_order. cbn [links]. rewrite Hdir. cbn [negb].
    rewrite collect_loop. cbn [app]. f_equal.
    apply filter_all, Forall_forall. intros l Hl.
    destruct (Hall l Hl) as [-> _]. done. }
  rewrite Hfound.
  destruct (merge_of_unreadable_loop_result w (MergeSpec.file_of pdf_dir <$> ls) output)
    as (info & wr & w1 & Hrun & Hp & He & Hc); [|done|].
  { apply Forall_fmap, Forall_forall. intros l Hl. by destruct (Hall l Hl) as [_ ?]. }
  rewrite length_fmap in He.
  destruct ls as [|l0 ls']; [done|]. cbn [fmap list_fmap] in *.
  rewrite Hrun. cbn [success]. by exists info, w1.
Qed.

End MergerEdges.

Lemma merge_counts_add_up_witness :
  exists info wr w1,
    Merge.merge_pdfs_with_bookmarks (SampleMerge.found SampleMerge.damaged)
      "./data/merged.pdf" SampleMerge.damaged = (MergeOk info, wr, w1)
    /\ processed_count info + error_count info
       = length (SampleMerge.found SampleMerge.damaged)
    /\ bookmarks_count info <= processed_count info.
Proof.
  destruct (merge_counts_add_up SampleMerge.damaged
              (SampleMerge.found SampleMerge.damaged) "./data/merged.pdf")
    as (info & wr & w1 & Hrun & Hsum & _ & Hle & _).
  - intros wr. apply fake_write_returns. vm_compute. discriminate.
  - exists info, wr, w1. split_and!; [exact Hrun|exact Hsum|exact Hle].
Defined.

Lemma bookmarks_tile_pages_witness :
  exists info wr w1,
    Merge.merge_pdfs_with_bookmarks (SampleMerge.found SampleMerge.with_empty)
      "./data/merged.pdf" SampleMerge.with_empty = (MergeOk info, wr, w1)
    /\ MergeFacts.tiles 0 (bookmarks info) (page_count info).
Proof.
  destruct (bookmarks_tile_pages SampleMerge.with_empty
              (SampleMerge.found SampleMerge.with_empty) "./data/merged.pdf")
    as (info & wr & w1 & Hrun & Htiles & _).
  - intros wr. apply fake_write_returns. vm_compute. discriminate.
  - exists info, wr, w1. split; [exact Hrun|exact Htiles].
Defined.

Lemma merge_page_accounting_witness :
  exists info wr w1,
    Merge.merge_pdfs_with_bookmarks (SampleMerge.found SampleTorn.torn)
      "./data/merged.pdf" SampleTorn.torn = (MergeOk info, wr, w1)
    /\ length (pages wr)
       = page_count info
         + sum_list (MergeFacts.stray SampleTorn.torn
                       <$> SampleMerge.found SampleTorn.torn).
Proof.
  destruct (merge_page_accounting SampleTorn.torn
              (SampleMerge.found SampleTorn.torn) "./data/merged.pdf")
    as (info & wr & w1 & Hrun & Hpages & _).
  - intros wr. apply fake_write_returns. vm_compute. discriminate.
  - exists info, wr, w1. split; [exact Hrun|exact Hpages].
Defined.

Lemma merge_of_unreadable_files_witness :
  exists info wr w1,
    Merge.merge_pdfs_with_bookmarks (SampleTorn.found SampleTorn.unreadable)
      "./data/merged.pdf" SampleTorn.unreadable = (MergeOk info, wr, w1)
    /\ success (MergeOk info) = true
    /\ processed_count info = 0
    /\ error_count info = length (SampleTorn.found SampleTorn.unreadable)
    /\ page_count info = 0
    /\ bookmarks info = [].
Proof.
  destruct (merge_of_unreadable_files SampleTorn.unreadable
              (SampleTorn.found SampleTorn.unreadable) "./data/merged.pdf")
    as (info & wr & w1 & Hrun & Hok & Hp & He & Hc & Hm & _).
  - vm_compute. repeat constructor.
  - intros wr. apply fake_write_returns. vm_compute. discriminate.
  - exists info, wr, w1.
    split_and!; [exact Hrun|exact Hok|exact Hp|exact He|exact Hc|exact Hm].
Defined.

Lemma clean_failures_are_left_out_witness :
  exists info wr w1,
    Merge.merge_pdfs_with_bookmarks (SampleMerge.found SampleMerge.damaged)
      "./data/merged.pdf" SampleMerge.damaged = (MergeOk info, wr, w1)
    /\ pages wr
       = concat (snd <$> MergeFacts.read_docs SampleMerge.damaged
                           (SampleMerge.found SampleMerge.damaged))
    /\ page_count info = length (pages wr).
Proof.
  destruct (clean_failures_are_left_out SampleMerge.damaged
              (SampleMerge.found SampleMerge.damaged) "./data/merged.pdf")
    as (info & wr & w1 & Hrun & Hpages & _ & _ & Hcount).
  - vm_compute. repeat constructor.
  - intros wr. apply fake_write_returns. vm_compute. discriminate.
  - exists info, wr, w1. split_and!; [exact Hrun|exact Hpages|exact Hcount].
Defined.

Lemma main_without_pdfs_witness :
  Merge.main "./data/extracted_urls.json" "./data/pdfs" "./data/merged.pdf"
    SampleTorn.unrendered
  = Some (1%Z, None, SampleTorn.unrendered).
Proof.
  apply (main_without_pdfs "./data/extracted_urls.json" "./data/pdfs"
           "./data/merged.pdf" (SampleMerge.record <$> ["A"; "B"])
           "https://example.com" SampleTorn.unrendered).
  - vm_compute. reflexivity.
  - right. apply Forall_forall. vm_compute. repeat constructor.
Defined.

Lemma main_succeeds_without_pages_witness :
  exists info w1,
    Merge.main "./data/extracted_urls.json" "./data/pdfs" "./data/merged.pdf"
      SampleTorn.unreadable
    = Some (0%Z, Some (MergeOk info), w1)
    /\ processed_count info = 0
    /\ page_count info = 0
    /\ error_count info = 2.
Proof.
  destruct (main_succeeds_without_pages "./data/extracted_urls.json" "./data/pdfs"
              "./data/merged.pdf" (SampleMerge.record <$> ["A"; "B"])
              "https://example.com" SampleTorn.unreadable)
    as (info & w1 & Hrun & Hp & Hc & He).
  - vm_compute. reflexivity.
  - vm_compute. reflexivity.
  - discriminate.
  - apply Forall_forall. vm_compute. repeat constructor.
  - intros wr. apply fake_write_returns. vm_compute. discriminate.
  - exists info, w1. split_and!; [exact Hrun|exact Hp|exact Hc|exact He].
Defined.

Section MergerExit.

Context {W : Type} `{FileSystem W} `{PdfLib W}.

(** A merge whose write step completes returns the dict of a success. *)
Lemma merge_completes (w : W) pdf_files output :
  (forall wr, is_Some (snd (write_pdf output wr w))) ->
  exists info wr w1,
    Merge.merge_pdfs_with_bookmarks pdf_files output w = (MergeOk info, wr, w1).
Proof.
  intros Hwrite. unfold Merge.merge_pdfs_with_bookmarks.
  match goal with |- context [write_pdf output ?wr w] =>
    destruct (Hwrite wr) as [size Hw];
    destruct (write_pdf output wr w) as [w1 written]; cbn [snd] in Hw; subst written end.
  by eexists _, _, _.
Qed.

(** X21: for a manifest of the extractor's form and a write step that
    completes, [main] of the merger returns 0 or 1, and it returns 0 exactly
    when the directory exists and the file of at least one record exists in
    it: whether any of the files can be read plays no part. *)
Theorem merge_exit_code json_path pdf_dir output ls base_url (w : W) :
  json_load json_path w = Some (Extract.payload ls base_url) ->
  (forall wr, is_Some (snd (write_pdf output wr w))) ->
  exists code result w1,
    Merge.main json_path pdf_dir output w = Some (code, result, w1)
    /\ (code = 0%Z \/ code = 1%Z)
    /\ (code = 0%Z
        <-> path_exists pdf_dir w = true
            /\ exists l, l ∈ ls
                 /\ path_exists (OsPath.join pdf_dir [file_name l]) w = true).
Proof.
  intros Hload Hwrite. unfold Merge.main, Merge.read_json_file.
  rewrite Hload, payload_truthy, to_manifest_payload. cbn [negb].
  unfold Merge.get_pdf_files_in_order. cbn [links].
  destruct (path_exists pdf_dir w) eqn:Hdir; cbn [negb].
  - rewrite collect_loop. cbn [app].
    destruct (filter (fun l => path_exists (OsPath.join pdf_dir [file_name l]) w) ls)
      as [|l found] eqn:Hfound.
    + exists 1%Z, None, w. split_and!; [done|by right|]. split; [done|].
      intros (_ & l & Hl & Hfile). exfalso.
      assert (Hin : l ∈ filter (fun l => path_exists (OsPath.join pdf_dir [file_name l]) w) ls).
      { apply list_elem_of_filter. split; [|done]. rewrite Hfile. exact I. }
      rewrite Hfound in Hin. by apply elem_of_nil in Hin.
    + cbn [fmap list_fmap].
      destruct (merge_completes w
                  (MergeSpec.file_of pdf_dir l :: (MergeSpec.file_of pdf_dir <$> found))
                  output Hwrite) as (info & wr & w1 & Hrun).
      cbn [fmap] in Hrun. rewrite Hrun. cbn [success].
      exists 0%Z, (Some (MergeOk info)), w1. split_and!; [done|by left|].
      split; [|done]. intros _. split; [done|]. exists l.
      assert (Hin : l ∈ filter (fun l => path_exists (OsPath.join pdf_dir [file_name l]) w) ls).
      { rewrite Hfound. apply list_elem_of_here. }
      apply list_elem_of_filter in Hin as [Hfile Hl]. split; [done|].
      by destruct (path_exists (OsPath.join pdf_dir [file_name l]) w).
  - exists 1%Z, None, w. split_and!; [done|by right|]. split; [done|].
    by intros [? _].
Qed.

End MergerExit.

Lemma merge_exit_code_witness :
  exists code result w1,
    Merge.main "./data/extracted_urls.json" "./data/pdfs" "./data/merged.pdf"
      SampleTorn.unreadable
    = Some (code, result, w1)
    /\ (code = 0%Z
        <-> path_exists "./data/pdfs" SampleTorn.unreadable = true
            /\ exists l, l ∈ SampleMerge.record <$> ["A"; "B"]
                 /\ path_exists (OsPath.join "./data/pdfs" [file_name l])
                      SampleTorn.unreadable = true).
Proof.
  destruct (merge_exit_code "./data/extracted_urls.json" "./data/pdfs"
              "./data/merged.pdf" (SampleMerge.record <$> ["A"; "B"])
              "https://example.com" SampleTorn.unreadable)
    as (code & result & w1 & Hrun & _ & Hcode).
  - vm_compute. reflexivity.
  - intros wr. apply fake_write_returns. vm_compute. discriminate.
  - exists code, result, w1. split; [exact Hrun|exact Hcode].
Defined.
